(** * A shallow embedding of the datacube catalog's driver manager,
      command-line helpers and registry contracts.

    Sources embedded here:
    - [datacube/drivers/manager.py]   (module [Manager])
    - [datacube/ui/common.py]         (module [UiCommon])
    - [datacube/scripts/file_cli.py]  (module [FileCli])
    - the field compiler, the product / metadata-type registries and the
      query engine, whose implementation modules are not part of the
      source tree at hand: modules [Fields], [Registry] and [Search]. *)

From Stdlib Require Import ZArith Lia List String Ascii Permutation.
From stdpp Require Import base gmap strings list.
From Equations Require Import Equations.
Import ListNotations.

Open Scope string_scope.
Open Scope Z_scope.

(* ===================================================================== *)
(** * Part I: definitions *)
(* ===================================================================== *)

(** ** Python runtime notions shared by all modules *)

(** The exceptions the embedded code raises. *)
Inductive exn : Type :=
| ValueError (msg : string)
| RuntimeError (msg : string).

(** Outcome of a call that either returns or raises. *)
Inductive result (A : Type) : Type :=
| Ok (a : A)
| Raise (e : exn).
Arguments Ok {A} a.
Arguments Raise {A} e.

Definition is_value_error {A} (r : result A) : bool :=
  match r with Raise (ValueError _) => true | _ => false end.

Definition is_runtime_error {A} (r : result A) : bool :=
  match r with Raise (RuntimeError _) => true | _ => false end.

(** A Python [dict] with string keys, kept as an association list in
    insertion order: [d[k] = v] replaces the value of an existing key in
    place and appends a new key at the end; keys are unique. *)
Module PyDict.

Definition t (V : Type) : Type := list (string * V).

Fixpoint get {V} (d : t V) (k : string) : option V :=
  match d with
  | [] => None
  | (k', v) :: d' => if String.eqb k' k then Some v else get d' k
  end.

Definition mem {V} (d : t V) (k : string) : bool :=
  match get d k with Some _ => true | None => false end.

Fixpoint set {V} (d : t V) (k : string) (v : V) : t V :=
  match d with
  | [] => [(k, v)]
  | (k', v') :: d' =>
      if String.eqb k' k then (k', v) :: d' else (k', v') :: set d' k v
  end.

Definition keys {V} (d : t V) : list string := map fst d.
Definition values {V} (d : t V) : list V := map snd d.
Definition len {V} (d : t V) : nat := List.length d.

End PyDict.

(** The double-quote character, as a string. *)
Definition dquote : string := String (ascii_of_nat 34) EmptyString.

(** [sep.join(xs)] *)
Fixpoint join (sep : string) (xs : list string) : string :=
  match xs with
  | [] => EmptyString
  | [x] => x
  | x :: rest => x ++ sep ++ join sep rest
  end.

(** [s.split(sep, 1)] for a one-character separator: the text before the
    first occurrence of [sep] and the text after it, or the whole string
    alone when [sep] does not occur. *)
Fixpoint split1 (sep : ascii) (s : string) : list string :=
  match s with
  | EmptyString => [EmptyString]
  | String c rest =>
      if Ascii.eqb c sep then [EmptyString; rest]
      else match split1 sep rest with
           | [] => []
           | hd :: tl => String c hd :: tl
           end
  end.

(** [c in s] for a character. *)
Fixpoint contains_char (c : ascii) (s : string) : bool :=
  match s with
  | EmptyString => false
  | String c' rest => Ascii.eqb c' c || contains_char c rest
  end.

(* ===================================================================== *)
(** ** datacube/drivers/manager.py *)
(* ===================================================================== *)

Module Manager.

(** Identity of a store connection (a [PostgresDb] object).  The class
    defines no equality of its own, so [!=] on two of them compares
    identities. *)
Definition Conn : Type := nat.

(** What the manager reads of a storage driver plugin: its [name], its
    [uri_scheme], the connection [index._db] of its index and the answer
    of its [requirements_satisfied()] probe. *)
Record Driver : Type := mkDriver {
  name : string;
  uri_scheme : string;
  index_db : Conn;
  requirements_satisfied : bool
}.

(** The manager object: [__index] (through its [_db]), [__driver] and
    [__drivers].  [__drivers] is [None] only between the first lines of
    [__init__] and its call of [reload_drivers]; [None] and the empty
    dict are both falsy, and the one operation that tells them apart
    ([in]) runs after [reload_drivers] has stored a dict, so the empty
    dict stands for both. *)
Record DriverManager : Type := mkManager {
  index : Conn;
  driver : option Driver;
  drivers : PyDict.t Driver
}.

(** What the loop of [reload_drivers] finds under one
    [*/__init__.py] when no step raises outside the guarded import (the
    steps that do are in [Discovery.Package]): whether the
    package declares [DRIVER_SPEC], the entries [spec[0]] and [spec[1]] of
    it, whether loading the driver module it names raises [ImportError]
    (the import the loop guards), whether the class found is a subclass
    of [Driver], and the constructor [driver_cls(manager, spec[0], db)]. *)
Record Plugin : Type := mkPlugin {
  has_driver_spec : bool;
  spec_name : string;
  spec_class : string;
  import_fails : bool;
  is_driver_subclass : bool;
  construct : string -> Conn -> Driver
}.

Definition _DEFAULT_DRIVER : string := "NetCDF CF".

(** The [_db.close()] calls made on the drivers' indexes: one for each
    driver whose index connection is not the generic index's. *)
Definition close_drivers (m : DriverManager) : list Conn :=
  map index_db
      (List.filter (fun d => negb (Nat.eqb (index_db d) (index m)))
              (PyDict.values (drivers m))).

(** [DriverManager.close]: the sequence of connections on which
    [close()] is called, in call order. *)
Definition close (m : DriverManager) : list Conn :=
  close_drivers m ++ [index m].

(** One iteration of the discovery loop of [reload_drivers], for a
    plugin of which no step raises outside the guarded import;
    [Discovery.load_package] is the iteration with every exception. *)
Definition load_plugin (db : Conn) (ds : PyDict.t Driver) (p : Plugin)
  : PyDict.t Driver :=
  if has_driver_spec p then
    if import_fails p then ds                     (* warning, continue *)
    else if is_driver_subclass p then
      let driver := construct p (spec_name p) db in
      if negb (requirements_satisfied driver) then ds   (* info, continue *)
      else PyDict.set ds (name driver) driver
    else ds                                       (* warning *)
  else ds.

(** A plugin the discovery loop registers: it declares [DRIVER_SPEC],
    its module loads, its class is a [Driver] and the instance passes the
    [requirements_satisfied()] probe. *)
Definition passes (db : Conn) (p : Plugin) : bool :=
  has_driver_spec p && negb (import_fails p) && is_driver_subclass p
  && requirements_satisfied (construct p (spec_name p) db).

(** [DriverManager.reload_drivers]: returns the manager after the call,
    the connections closed on the way and the outcome.  [plugins] is
    what the glob over the drivers directory yields. *)
Definition reload_drivers (plugins : list Plugin) (m : DriverManager)
           (db : Conn) : DriverManager * list Conn * result unit :=
  let closed := close_drivers m in
  let ds := fold_left (load_plugin db) plugins [] in
  let m' := mkManager (index m) (driver m) ds in
  if (PyDict.len ds <? 1)%nat
  then (m', closed, Raise (RuntimeError "No plugin driver found, Datacube cannot operate."))
  else (m', closed, Ok tt).

(** [DriverManager.set_current_driver]; [driver_name] may be [None]. *)
Definition set_current_driver (m : DriverManager) (driver_name : option string)
  : DriverManager * result unit :=
  match driver_name with
  | None =>
      (m, Raise (ValueError ("Default driver " ++ dquote ++ "None" ++ dquote
                               ++ " is not available in "
                               ++ join ", " (PyDict.keys (drivers m)))))
  | Some n =>
      match PyDict.get (drivers m) n with
      | None =>
          (m, Raise (ValueError ("Default driver " ++ dquote ++ n ++ dquote
                                   ++ " is not available in "
                                   ++ join ", " (PyDict.keys (drivers m)))))
      | Some d => (mkManager (index m) (Some d) (drivers m), Ok tt)
      end
  end.

(** [DriverManager.__init__]: the generic index is built on [db], the
    drivers are discovered, the default driver is made current; the
    object is handed to the caller only when none of these raises. *)
Definition init (plugins : list Plugin) (db : Conn) : result DriverManager :=
  let m0 := mkManager db None [] in
  match reload_drivers plugins m0 db with
  | (_, _, Raise e) => Raise e
  | (m1, _, Ok _) =>
      match set_current_driver m1 (Some _DEFAULT_DRIVER) with
      | (_, Raise e) => Raise e
      | (m2, Ok _) => Ok m2
      end
  end.

(** The distinct store connections behind a manager: the generic
    index's and those of the registered drivers' indexes. *)
Definition connections (m : DriverManager) : list Conn :=
  index m :: map index_db (PyDict.values (drivers m)).

(** The connections of the drivers' indexes other than the generic
    index's, one entry for each driver that holds one. *)
Definition side_connections (m : DriverManager) : list Conn :=
  List.filter (fun c => negb (Nat.eqb c (index m)))
              (map index_db (PyDict.values (drivers m))).

(** The scheme computed at the head of [get_driver_by_scheme].  [uris]
    is [None] for an argument that is not an [Iterable]. *)
Definition scheme_of (uris : option (list string)) : string :=
  match uris with
  | Some (u :: _) =>
      match split1 ":" u with
      | [p0; _] => p0
      | _ => "file"
      end
  | _ => "file"
  end.

Fixpoint first_with_scheme (scheme : string) (ds : list Driver) : option Driver :=
  match ds with
  | [] => None
  | d :: rest =>
      if String.eqb scheme (uri_scheme d) then Some d
      else first_with_scheme scheme rest
  end.

(** [DriverManager.get_driver_by_scheme] *)
Definition get_driver_by_scheme (m : DriverManager) (uris : option (list string))
  : result Driver :=
  let scheme := scheme_of uris in
  match first_with_scheme scheme (PyDict.values (drivers m)) with
  | Some d => Ok d
  | None => Raise (ValueError ("No driver found for scheme " ++ dquote ++ scheme ++ dquote))
  end.

(** [DriverManager.get_datasource] and [DriverManager.add_specifics]
    hand the call to the driver chosen from [dataset.uris]; the
    driver-side operation [op] is the plugin's. *)
Definition dispatch_by_uris {A} (m : DriverManager) (uris : option (list string))
           (op : Driver -> A) : result A :=
  match get_driver_by_scheme m uris with
  | Ok d => Ok (op d)
  | Raise e => Raise e
  end.

Definition get_datasource {DS} (m : DriverManager) (uris : option (list string))
           (driver_get_datasource : Driver -> DS) : result DS :=
  dispatch_by_uris m uris driver_get_datasource.

Definition add_specifics {R} (m : DriverManager) (uris : option (list string))
           (index_add_specifics : Driver -> R) : result R :=
  dispatch_by_uris m uris index_add_specifics.

(** *** Managers and plugins to run the functions on *)

(** A manager with a NetCDF driver for local files and an S3 driver,
    both on the generic index's connection. *)
Definition two_scheme_manager : DriverManager :=
  mkManager 1%nat None
            [("NetCDF CF", mkDriver "NetCDF CF" "file" 1%nat true);
             ("s3", mkDriver "s3" "s3" 1%nat true)].

(** A manager whose two drivers share a connection of their own, apart
    from the generic index's. *)
Definition side_connection_manager : DriverManager :=
  mkManager 1%nat None
            [("NetCDF CF", mkDriver "NetCDF CF" "file" 2%nat true);
             ("s3", mkDriver "s3" "s3" 2%nat true)].

(** A manager whose drivers each hold a connection of their own. *)
Definition own_connections_manager : DriverManager :=
  mkManager 1%nat None
            [("NetCDF CF", mkDriver "NetCDF CF" "file" 1%nat true);
             ("s3", mkDriver "s3" "s3" 2%nat true);
             ("s3-test", mkDriver "s3-test" "s3" 3%nat true)].

(** Plugins as the discovery loop may meet them: a working NetCDF
    driver, one whose module does not import, one that fails its
    requirements probe, a package without [DRIVER_SPEC] and a class that
    is no [Driver]. *)
Definition netcdf_plugin : Plugin :=
  mkPlugin true "NetCDF CF" "NetCDFWriterDriver" false true
           (fun n db => mkDriver n "file" db true).
Definition broken_import_plugin : Plugin :=
  mkPlugin true "s3" "S3Driver" true true
           (fun n db => mkDriver n "s3" db true).
Definition unmet_requirements_plugin : Plugin :=
  mkPlugin true "s3-test" "S3TestDriver" false true
           (fun n db => mkDriver n "s3" db false).
Definition no_spec_plugin : Plugin :=
  mkPlugin false EmptyString EmptyString false true
           (fun n db => mkDriver n "file" db true).
Definition not_a_driver_plugin : Plugin :=
  mkPlugin true "other" "Other" false false
           (fun n db => mkDriver n "file" db true).

End Manager.

(* ===================================================================== *)
(** ** datacube/ui/common.py *)
(* ===================================================================== *)

Module UiCommon.

(** Dataset objects live in the interpreter's heap and refer to each
    other: [dataset.sources] maps a relationship name to another dataset
    object, and nothing keeps such references from forming a cycle.  A
    reference is an address in that heap. *)
Definition Ref : Type := nat.

(** What [build_dataset_info] reads of a dataset object. *)
Record Dataset : Type := mkDataset {
  id : string;
  type_name : string;                     (* dataset.type.name *)
  is_archived : bool;
  indexed_time : option Z;
  uris : list string;
  search_fields : list (string * string); (* dataset.metadata.search_fields *)
  sources : list (string * Ref)           (* dataset.sources.items() *)
}.

(** The heap of dataset objects together with the one index call the
    function makes, [index.datasets.get_derived(id)]. *)
Record Index : Type := mkIndex {
  deref : Ref -> Dataset;
  get_derived : string -> list Ref
}.

(** The [OrderedDict] built for one dataset; ['sources'] and ['derived']
    are present only when the function has set them. *)
#[local] Unset Elimination Schemes.
Inductive Info : Type :=
  mkInfo (info_id info_product info_status : string)
         (info_indexed : option Z)
         (info_locations : list string)
         (info_fields : list (string * string))
         (info_sources : option (list (string * Info)))
         (info_derived : option (list Info)).
#[local] Set Elimination Schemes.

(** [build_dataset_info(index, dataset, show_sources, show_derived,
    depth, max_depth)].  The recursion is on [max_depth - depth]: both
    recursive calls sit under the test [depth < max_depth] and pass
    [depth + 1]. *)
Equations? build_dataset_info (index : Index) (dataset : Dataset)
           (show_sources show_derived : bool) (depth max_depth : Z) : Info
  by wf (Z.to_nat (max_depth - depth)) lt :=
  build_dataset_info index dataset show_sources show_derived depth max_depth
    with Z_lt_dec depth max_depth := {
    | left _ =>
        mkInfo (id dataset) (type_name dataset)
               (if is_archived dataset then "archived" else "active")
               (indexed_time dataset) (uris dataset) (search_fields dataset)
               (if show_sources
                then Some (map (fun ks =>
                                  (fst ks,
                                   build_dataset_info index (deref index (snd ks))
                                                      true false (depth + 1) max_depth))
                               (sources dataset))
                else None)
               (if show_derived
                then Some (map (fun r =>
                                  build_dataset_info index (deref index r)
                                                     false true (depth + 1) max_depth)
                               (get_derived index (id dataset)))
                else None)
    | right _ =>
        mkInfo (id dataset) (type_name dataset)
               (if is_archived dataset then "archived" else "active")
               (indexed_time dataset) (uris dataset) (search_fields dataset)
               None None }.
Proof. all: lia. Qed.

(** The default of the [--max-depth] option of [file info]. *)
Definition default_max_depth : Z := 99.

(** [write_datasets]: one info per dataset of the input, built with the
    function's own default [depth=1]. *)
Definition write_datasets (index : Index) (datasets : list Dataset)
           (show_sources show_derived : bool) (max_depth : Z) : list Info :=
  map (fun d => build_dataset_info index d show_sources show_derived 1 max_depth)
      datasets.

(** The deepest level of recursion recorded in an info whose own call
    ran at level [depth]: each entry of ['sources'] and ['derived'] was
    built one level further down. *)
Fixpoint deepest (depth : Z) (i : Info) {struct i} : Z :=
  match i with
  | mkInfo _ _ _ _ _ _ srcs ders =>
      fold_right Z.max depth
                 (match srcs with
                  | Some l => map (fun ks => deepest (depth + 1) (snd ks)) l
                  | None => []
                  end
                  ++ match ders with
                     | Some l => map (deepest (depth + 1)) l
                     | None => []
                     end)
  end.

(** The number of calls of [build_dataset_info] behind an info. *)
Fixpoint calls (i : Info) {struct i} : nat :=
  match i with
  | mkInfo _ _ _ _ _ _ srcs ders =>
      S (list_sum (match srcs with
                   | Some l => map (fun ks => calls (snd ks)) l
                   | None => []
                   end
                   ++ match ders with
                      | Some l => map calls l
                      | None => []
                      end))
  end.

Definition info_sources (i : Info) : option (list (string * Info)) :=
  match i with mkInfo _ _ _ _ _ _ srcs _ => srcs end.

Definition info_derived (i : Info) : option (list Info) :=
  match i with mkInfo _ _ _ _ _ _ _ ders => ders end.

(** *** A cyclic lineage to run the function on *)

(** A dataset that names itself as its own source, in a catalogue that
    also lists it as derived from itself. *)
Definition self_sourced : Dataset :=
  mkDataset "f7018d80" "ls5_nbar_scene" false None ["file:///g/data/scene.nc"]
            [("platform", "LANDSAT_5")] [("nbar", 0%nat)].

Definition cyclic_index : Index :=
  mkIndex (fun _ => self_sourced) (fun _ => [0%nat]).

End UiCommon.


(* ===================================================================== *)
(** ** datacube/scripts/file_cli.py *)
(* ===================================================================== *)

Module FileCli.

Section Commands.

(** The catalogue behind [index.datasets] and the three calls the
    commands make on it.  [archive_location] and [restore_location]
    answer whether they changed anything and leave a new catalogue.
    [_full_uri] depends on the file system. *)
Variable Catalogue : Type.
Variable DatasetId : Type.
Variable get_datasets_for_location : Catalogue -> string -> list DatasetId.
Variable archive_location : Catalogue -> DatasetId -> string -> bool * Catalogue.
Variable restore_location : Catalogue -> DatasetId -> string -> bool * Catalogue.
Variable _full_uri : string -> string.

(** The loop [for d in to_process] of [archive_cmd]; the lines written by
    [click.echo] are left out. *)
Fixpoint archive_datasets (dry_run : bool) (file_uri : string)
         (to_process : list DatasetId) (st : Catalogue) (archive_count : nat)
  : nat * Catalogue :=
  match to_process with
  | [] => (archive_count, st)
  | d :: rest =>
      if dry_run then archive_datasets dry_run file_uri rest st archive_count
      else
        let (was_archived, st') := archive_location st d file_uri in
        archive_datasets dry_run file_uri rest st'
                         (if was_archived then S archive_count else archive_count)
  end.

(** The loop [for file_ in files] of [archive_cmd]. *)
Fixpoint archive_files (dry_run : bool) (files : list string) (st : Catalogue)
         (not_found_count : nat) : nat * Catalogue :=
  match files with
  | [] => (not_found_count, st)
  | file_ :: rest =>
      let file_uri := _full_uri file_ in
      let to_process := get_datasets_for_location st file_uri in
      let (archive_count, st') :=
        archive_datasets dry_run file_uri to_process st O in
      archive_files dry_run rest st'
                    (if Nat.eqb archive_count 0 then S not_found_count
                     else not_found_count)
  end.

(** [archive_cmd]: the argument of [sys.exit] and the catalogue left. *)
Definition archive_cmd (st : Catalogue) (dry_run : bool) (files : list string)
  : nat * Catalogue :=
  archive_files dry_run files st O.

(** The loop [for d in to_process] of [restore_cmd].  The test
    [if restore_count == 0] is part of the loop body, so it runs once
    per dataset and not once per file. *)
Fixpoint restore_datasets (dry_run : bool) (file_uri : string)
         (to_process : list DatasetId) (st : Catalogue)
         (restore_count not_found_count : nat) : nat * nat * Catalogue :=
  match to_process with
  | [] => (restore_count, not_found_count, st)
  | d :: rest =>
      let (restore_count', st') :=
        if dry_run then (restore_count, st)
        else
          let (was_restored, st') := restore_location st d file_uri in
          (if was_restored then S restore_count else restore_count, st') in
      restore_datasets dry_run file_uri rest st' restore_count'
                       (if Nat.eqb restore_count' 0 then S not_found_count
                        else not_found_count)
  end.

(** The loop [for file_ in files] of [restore_cmd]. *)
Fixpoint restore_files (dry_run : bool) (files : list string) (st : Catalogue)
         (not_found_count : nat) : nat * Catalogue :=
  match files with
  | [] => (not_found_count, st)
  | file_ :: rest =>
      let file_uri := _full_uri file_ in
      let to_process := get_datasets_for_location st file_uri in
      let '(_, not_found_count', st') :=
        restore_datasets dry_run file_uri to_process st O not_found_count in
      restore_files dry_run rest st' not_found_count'
  end.

(** [restore_cmd]: the argument of [sys.exit] and the catalogue left. *)
Definition restore_cmd (st : Catalogue) (dry_run : bool) (files : list string)
  : nat * Catalogue :=
  restore_files dry_run files st O.

(** The answers of the toggle [toggle] on each dataset found at
    [file_uri], in call order, and the catalogue left; nothing is called
    on a dry run. *)
Fixpoint toggle_answers (toggle : Catalogue -> DatasetId -> string -> bool * Catalogue)
         (dry_run : bool) (file_uri : string) (to_process : list DatasetId)
         (st : Catalogue) : list bool * Catalogue :=
  match to_process with
  | [] => ([], st)
  | d :: rest =>
      if dry_run then toggle_answers toggle dry_run file_uri rest st
      else
        let (b, st') := toggle st d file_uri in
        let (bs, st'') := toggle_answers toggle dry_run file_uri rest st' in
        (b :: bs, st'')
  end.

(** The number of files of the input for which no call of [toggle]
    answered true (none was made, or every one answered false), the
    files being processed in order on the evolving catalogue. *)
Fixpoint files_without_change
         (toggle : Catalogue -> DatasetId -> string -> bool * Catalogue)
         (dry_run : bool) (files : list string) (st : Catalogue) : nat * Catalogue :=
  match files with
  | [] => (O, st)
  | file_ :: rest =>
      let file_uri := _full_uri file_ in
      let (answers, st') :=
        toggle_answers toggle dry_run file_uri
                       (get_datasets_for_location st file_uri) st in
      let (n, st'') := files_without_change toggle dry_run rest st' in
      (if existsb (fun b => b) answers then n else S n, st'')
  end.

End Commands.

(** *** A catalogue to run the commands on *)

(** Modelled from the spec: the dataset store ([datacube/index/_api.py])
    is not among the sources.  A catalogue is the list of (dataset,
    location) pairs with their archival flag; [archive_location] and
    [restore_location] are the per-location toggles, which "return whether
    a change was actually made (false if already in that state or uri not
    present)". *)
Record Location : Type := mkLocation {
  loc_dataset : string;
  loc_uri : string;
  loc_archived : bool
}.

Definition Store : Type := list Location.

Definition at_location (d uri : string) (l : Location) : bool :=
  String.eqb (loc_dataset l) d && String.eqb (loc_uri l) uri.

Definition store_get_datasets_for_location (st : Store) (uri : string)
  : list string :=
  map loc_dataset (List.filter (fun l => String.eqb (loc_uri l) uri) st).

Definition set_archived (flag : bool) (st : Store) (d uri : string)
  : bool * Store :=
  (existsb (fun l => at_location d uri l && negb (Bool.eqb (loc_archived l) flag)) st,
   map (fun l => if at_location d uri l
                 then mkLocation (loc_dataset l) (loc_uri l) flag else l) st).

Definition store_archive_location : Store -> string -> string -> bool * Store :=
  set_archived true.
Definition store_restore_location : Store -> string -> string -> bool * Store :=
  set_archived false.

(** An absolute path is turned into a [file://] uri. *)
Definition store_full_uri (file_ : string) : string := "file://" ++ file_.

Definition run_archive : Store -> bool -> list string -> nat * Store :=
  archive_cmd Store string store_get_datasets_for_location
              store_archive_location store_full_uri.

Definition run_restore : Store -> bool -> list string -> nat * Store :=
  restore_cmd Store string store_get_datasets_for_location
              store_restore_location store_full_uri.

Definition run_without_change (toggle : Store -> string -> string -> bool * Store)
  : bool -> list string -> Store -> nat * Store :=
  files_without_change Store string store_get_datasets_for_location
                       store_full_uri toggle.

(** A catalogue with two datasets at one file, both active there. *)
Definition two_active_at_scene : Store :=
  [mkLocation "f7018d80" "file:///g/data/scene.nc" false;
   mkLocation "0a1b2c3d" "file:///g/data/scene.nc" false].

(** A catalogue with two datasets at one file, the second one archived
    there. *)
Definition second_archived_at_scene : Store :=
  [mkLocation "f7018d80" "file:///g/data/scene.nc" false;
   mkLocation "0a1b2c3d" "file:///g/data/scene.nc" true].

End FileCli.


(* ===================================================================== *)
(** ** The field compiler *)
(* ===================================================================== *)

Module Fields.

(** A dataset's metadata document. Numbers and timestamps are both kept
    as integers: only their order matters to [least] and [greatest]. *)
#[local] Unset Elimination Schemes.
Inductive Json : Type :=
| JNull
| JNum (z : Z)
| JStr (s : string)
| JObj (items : list (string * Json)).
#[local] Set Elimination Schemes.

(** [doc #> '{k1, k2, ...}']: the sub-document at a json-path offset. *)
Fixpoint json_path (doc : Json) (offset : list string) {struct offset}
  : option Json :=
  match offset with
  | [] => Some doc
  | k :: rest =>
      match doc with
      | JObj items =>
          (fix find (l : list (string * Json)) : option Json :=
             match l with
             | [] => None
             | (k', v) :: l' =>
                 if String.eqb k' k then json_path v rest else find l'
             end) items
      | _ => None
      end
  end.

(** The ordered value extracted at an offset; SQL NULL ([None]) when the
    offset is absent from the document. *)
Definition extract (doc : Json) (offset : list string) : option Z :=
  match json_path doc offset with
  | Some (JNum z) => Some z
  | _ => None
  end.

Inductive ScalarKind : Type := KString | KInteger | KNumeric | KDouble | KDatetime.
Inductive RangeKind : Type := KNumericRange | KDoubleRange | KDatetimeRange.

(** Modelled from the spec: the field compiler
    ([datacube/index/postgres/_fields.py]) and the metadata-type
    documents it reads are not among the sources.  A field definition is
    "a JSON-path offset into a dataset's metadata document, plus a type
    tag"; a range field is "a composed expression over multiple offsets".
    The expressions pinned by [test_field_expression_unchanged] put one
    list of offsets under [least] and one under [greatest], and the two
    lists of the [time] field differ, so a range field carries both. *)
Inductive FieldDef : Type :=
| SimpleField (kind : ScalarKind) (offset : list string)
| RangeField (kind : RangeKind) (min_offset max_offset : list (list string)).

(** The compiled search expressions. *)
Inductive Scalar : Type :=
| DocText (offset : list string)
| CastAs (e : Scalar) (sqltype : string)
| CommonTimestamp (e : Scalar).

Inductive Expr : Type :=
| EScalar (e : Scalar)
| ERange (ctor : string) (least greatest : list Scalar) (bounds : string).

Definition scalar_of (kind : ScalarKind) (offset : list string) : Scalar :=
  match kind with
  | KString => DocText offset
  | KInteger => CastAs (DocText offset) "INTEGER"
  | KNumeric => CastAs (DocText offset) "NUMERIC"
  | KDouble => CastAs (DocText offset) "DOUBLE PRECISION"
  | KDatetime => CommonTimestamp (DocText offset)
  end.

Definition element_kind (kind : RangeKind) : ScalarKind :=
  match kind with
  | KNumericRange => KNumeric
  | KDoubleRange => KDouble
  | KDatetimeRange => KDatetime
  end.

Definition range_ctor (kind : RangeKind) : string :=
  match kind with
  | KNumericRange => "numrange"
  | KDoubleRange => "agdc.float8range"
  | KDatetimeRange => "tstzrange"
  end.

(** Modelled from the spec: [compile(field_def, kind)] of the field
    compiler, which is not among the sources.  "For string/numeric,
    resolves a single JSON-path offset to a scalar extraction expression,
    with numeric values cast from text"; for a range field it "produces
    range(min(extracted-values), max(extracted-values),
    inclusive-inclusive)", the minimum taken over the field's min-offsets
    and the maximum over its max-offsets as in the pinned expressions. *)
Definition compile (f : FieldDef) : Expr :=
  match f with
  | SimpleField kind offset => EScalar (scalar_of kind offset)
  | RangeField kind min_offset max_offset =>
      ERange (range_ctor kind)
             (map (scalar_of (element_kind kind)) min_offset)
             (map (scalar_of (element_kind kind)) max_offset)
             "[]"
  end.

(** The text of an expression, [field.sql_expression]. *)
Fixpoint scalar_sql (e : Scalar) : string :=
  match e with
  | DocText offset => "agdc.dataset.metadata #>> '{" ++ join ", " offset ++ "}'"
  | CastAs e' ty => "CAST(" ++ scalar_sql e' ++ " AS " ++ ty ++ ")"
  | CommonTimestamp e' => "agdc.common_timestamp(" ++ scalar_sql e' ++ ")"
  end.

Definition sql_expression (e : Expr) : string :=
  match e with
  | EScalar s => scalar_sql s
  | ERange ctor ls gs bounds =>
      ctor ++ "(least(" ++ join ", " (map scalar_sql ls)
           ++ "), greatest(" ++ join ", " (map scalar_sql gs)
           ++ "), '" ++ bounds ++ "')"
  end.

(** SQL [least] and [greatest]: NULL arguments are ignored, and the
    result is NULL only when every argument is. *)
Definition null_min (a b : option Z) : option Z :=
  match a, b with
  | Some x, Some y => Some (Z.min x y)
  | Some x, None => Some x
  | None, _ => b
  end.

Definition null_max (a b : option Z) : option Z :=
  match a, b with
  | Some x, Some y => Some (Z.max x y)
  | Some x, None => Some x
  | None, _ => b
  end.

Definition sql_least (vs : list (option Z)) : option Z := fold_right null_min None vs.
Definition sql_greatest (vs : list (option Z)) : option Z := fold_right null_max None vs.

(** The values of expressions: a scalar (or NULL), or a range with its
    two bounds ([None] for an unbounded side) and their inclusiveness. *)
Inductive Value : Type :=
| VScalar (v : option Z)
| VRange (lo hi : option Z) (lo_inclusive hi_inclusive : bool).

Fixpoint eval_scalar (doc : Json) (e : Scalar) : option Z :=
  match e with
  | DocText offset => extract doc offset
  | CastAs e' _ => eval_scalar doc e'
  | CommonTimestamp e' => eval_scalar doc e'
  end.

(** A range constructor refuses a lower bound above the upper one. *)
Definition make_range (lo hi : option Z) (bounds : string) : option Value :=
  match lo, hi with
  | Some l, Some h =>
      if h <? l then None
      else Some (VRange lo hi (String.eqb bounds "[]") (String.eqb bounds "[]"))
  | _, _ => Some (VRange lo hi (String.eqb bounds "[]") (String.eqb bounds "[]"))
  end.

(** The value of an expression on a document; [None] is an SQL error. *)
Definition eval (doc : Json) (e : Expr) : option Value :=
  match e with
  | EScalar s => Some (VScalar (eval_scalar doc s))
  | ERange _ ls gs bounds =>
      make_range (sql_least (map (eval_scalar doc) ls))
                 (sql_greatest (map (eval_scalar doc) gs)) bounds
  end.

(** Every offset backing a field. *)
Definition offsets (f : FieldDef) : list (list string) :=
  match f with
  | SimpleField _ offset => [offset]
  | RangeField _ min_offset max_offset => min_offset ++ max_offset
  end.

(** The fields whose expressions [test_field_expression_unchanged] pins. *)
Definition time_field : FieldDef :=
  RangeField KDatetimeRange
             [["extent"; "from_dt"]; ["extent"; "center_dt"]]
             [["extent"; "to_dt"]; ["extent"; "center_dt"]].

Definition lat_corners : list (list string) :=
  [["extent"; "coord"; "ur"; "lat"]; ["extent"; "coord"; "lr"; "lat"];
   ["extent"; "coord"; "ul"; "lat"]; ["extent"; "coord"; "ll"; "lat"]].

Definition lat_field : FieldDef := RangeField KDoubleRange lat_corners lat_corners.

Definition platform_field : FieldDef := SimpleField KString ["platform"; "code"].

Definition orbit_field : FieldDef :=
  SimpleField KInteger ["acquisition"; "platform_orbit"].

(** A document whose timestamps run backwards: [to_dt] before
    [center_dt] before [from_dt]. *)
Definition backwards_doc : Json :=
  JObj [("extent", JObj [("from_dt", JNum 2); ("center_dt", JNum 1); ("to_dt", JNum 0)])].

(** The extent of the telemetry dataset of the search tests, latitudes in
    units of 1e-5 degree and times in seconds of the day. *)
Definition telemetry_doc : Json :=
  JObj [("platform", JObj [("code", JStr "LANDSAT_8")]);
        ("extent",
         JObj [("from_dt", JNum 85680); ("to_dt", JNum 85920);
               ("coord",
                JObj [("ll", JObj [("lat", JNum (-3133333))]);
                      ("lr", JObj [("lat", JNum (-3137116))]);
                      ("ul", JObj [("lat", JNum (-2923394))]);
                      ("ur", JObj [("lat", JNum (-2926873))])])])].

End Fields.


(* ===================================================================== *)
(** ** The metadata-type and product registries *)
(* ===================================================================== *)

Module Registry.

#[export] Instance ScalarKind_eq_dec : EqDecision Fields.ScalarKind.
Proof. solve_decision. Defined.
#[export] Instance RangeKind_eq_dec : EqDecision Fields.RangeKind.
Proof. solve_decision. Defined.
#[export] Instance FieldDef_eq_dec : EqDecision Fields.FieldDef.
Proof. solve_decision. Defined.

(** A searchable field of a definition: how it is compiled, and whether
    an index is kept for it. *)
Record SearchField : Type := mkSearchField {
  sf_def : Fields.FieldDef;
  sf_indexed : bool
}.

#[export] Instance SearchField_eq_dec : EqDecision SearchField.
Proof. solve_decision. Defined.

(** Modelled from the spec: the registries ([index.products] and
    [index.metadata_types] of [datacube/index/_api.py]) are not among the
    sources.  A definition has a unique name, a free-text description, "a
    set of named FieldDefinitions" and, for a product, "a document of
    match rules", kept here as the map from each constrained path of the
    metadata document to the literal it must hold.  Finite maps are equal
    when their entries are, so a definition is its own normal form and
    "equivalent after normalization" is equality. *)
Record Definition_ : Type := mkDefinition {
  def_name : string;
  def_description : string;
  def_match : gmap (list string) string;
  def_fields : gmap string SearchField
}.

#[export] Instance Definition_eq_dec : EqDecision Definition_.
Proof. solve_decision. Defined.

(** The stored definitions, by name. *)
Definition Store : Type := gmap string Definition_.

(** Modelled from the spec: [get_by_name] of the registries. *)
Definition get_by_name (st : Store) (n : string) : option Definition_ := st !! n.

(** Modelled from the spec: [add_metadata_type(def)] / [add_product(def)].
    "If a type/product with the same name exists and its definition is
    byte-for-byte equivalent (after normalization), succeed silently; if it
    differs, fail with a validation error -- never silently overwrite."
    The validation error is the [ValueError] the tests expect. *)
Definition add (def : Definition_) (st : Store) : result unit * Store :=
  match st !! def_name def with
  | None => (Ok tt, <[def_name def := def]> st)
  | Some existing =>
      if decide (existing = def) then (Ok tt, st)
      else (Raise (ValueError ("A different definition is stored as " ++ def_name def)), st)
  end.

(** The changes between a stored and an incoming definition. *)
Inductive Change : Type :=
| DescriptionChanged
| FieldAdded (f : string)
| FieldChanged (f : string)
| FieldRemoved (f : string) (indexed : bool)
| MatchLoosened (path : list string)
| MatchTightened (path : list string).

(** Modelled from the spec: the structural diff of [update]: the fields
    of the stored definition that the incoming one redefines or drops,
    the fields it adds, the match constraints it drops, and those it adds
    or moves to another literal. *)
Definition field_changes (stored incoming : Definition_) : list Change :=
  omap (fun '(f, a) =>
          match def_fields incoming !! f with
          | Some b => if decide (a = b) then None else Some (FieldChanged f)
          | None => Some (FieldRemoved f (sf_indexed a))
          end)
       (map_to_list (def_fields stored))
  ++ omap (fun '(f, _) =>
             match def_fields stored !! f with
             | Some _ => None
             | None => Some (FieldAdded f)
             end)
          (map_to_list (def_fields incoming)).

Definition match_changes (stored incoming : Definition_) : list Change :=
  omap (fun '(p, v) =>
          match def_match stored !! p with
          | Some w => if decide (v = w) then None else Some (MatchTightened p)
          | None => Some (MatchTightened p)
          end)
       (map_to_list (def_match incoming))
  ++ omap (fun '(p, _) =>
             match def_match incoming !! p with
             | Some _ => None
             | None => Some (MatchLoosened p)
             end)
          (map_to_list (def_match stored)).

Definition doc_changes (stored incoming : Definition_) : list Change :=
  (if decide (def_description stored = def_description incoming)
   then [] else [DescriptionChanged])
  ++ field_changes stored incoming ++ match_changes stored incoming.

(** Modelled from the spec: the classification of a change.  Unsafe:
    "changing an existing field's type or extraction offsets", "tightening
    match rules", "removing a field that still has an index".  Safe:
    "adding a new optional field", "loosening match rules", "adding
    descriptive-only metadata". *)
Definition unsafe (c : Change) : bool :=
  match c with
  | FieldChanged _ => true
  | FieldRemoved _ indexed => indexed
  | MatchTightened _ => true
  | DescriptionChanged | FieldAdded _ | MatchLoosened _ => false
  end.

Definition change_name (c : Change) : string :=
  match c with
  | DescriptionChanged => "description"
  | FieldAdded f | FieldChanged f | FieldRemoved f _ => f
  | MatchLoosened p | MatchTightened p => join "." p
  end.

Definition unsafe_changes (stored incoming : Definition_) : list Change :=
  List.filter unsafe (doc_changes stored incoming).

(** Modelled from the spec: [update_metadata_type(def, allow_unsafe)] /
    [update_product(def, allow_unsafe)].  "If any unsafe change is
    detected and allow_unsafe is false, fail with a validation error
    naming the offending field(s); the stored definition is unchanged.  If
    allowed (explicitly opted in) or all changes are safe, apply the
    update."  An unknown name is an error as well. *)
Definition update (def : Definition_) (allow_unsafe : bool) (st : Store)
  : result unit * Store :=
  match st !! def_name def with
  | None => (Raise (ValueError ("Unknown definition " ++ def_name def)), st)
  | Some stored =>
      match unsafe_changes stored def with
      | [] => (Ok tt, <[def_name def := def]> st)
      | bad =>
          if allow_unsafe then (Ok tt, <[def_name def := def]> st)
          else (Raise (ValueError ("Unsafe changes at "
                                     ++ join ", " (map change_name bad))), st)
      end
  end.

(** An update changes an existing field's type or its offsets. *)
Definition redefines_field (stored incoming : Definition_) : Prop :=
  exists f a b,
    def_fields stored !! f = Some a /\ def_fields incoming !! f = Some b /\
    sf_def a <> sf_def b.

(** An update tightens the match rules: it constrains a path the stored
    rules leave free, or holds it to another literal. *)
Definition tightens_match (stored incoming : Definition_) : Prop :=
  exists p v, def_match incoming !! p = Some v /\ def_match stored !! p <> Some v.

(** *** Definitions to run the registries on *)

(** The [eo] metadata type with the fields whose expressions the tests
    pin, and the same type with the [time] field turned into a numeric
    range, as [test_update_metadata_type] does. *)
Definition eo_type : Definition_ :=
  mkDefinition "eo" "Earth observation datasets" ∅
               (<["time" := mkSearchField Fields.time_field true]>
                  (<["lat" := mkSearchField Fields.lat_field true]>
                     (<["platform" := mkSearchField Fields.platform_field true]> ∅))).

Definition eo_type_numeric_time : Definition_ :=
  mkDefinition "eo" "Earth observation datasets" ∅
               (<["time" := mkSearchField
                              (Fields.RangeField Fields.KNumericRange
                                 [["extent"; "from_dt"]; ["extent"; "center_dt"]]
                                 [["extent"; "to_dt"]; ["extent"; "center_dt"]]) true]>
                  (def_fields eo_type)).

(** A telemetry product in the manner of the tests' [ls5_telem_doc], and
    the same product with one more match rule, [ga_label], as
    [test_idempotent_add_dataset_type] and [test_update_dataset_type]
    build it. *)
Definition ls5_telem : Definition_ :=
  mkDefinition "ls5_telem_test" "LS5 test"
               (<[["product_type"] := "satellite_telemetry_data"]>
                  (<[["platform"; "code"] := "LANDSAT_5"]> ∅))
               ∅.

Definition ls5_telem_ga_label : Definition_ :=
  mkDefinition "ls5_telem_test" "LS5 test"
               (<[["ga_label"] := "something"]> (def_match ls5_telem))
               ∅.

End Registry.

(* ===================================================================== *)
(** ** The query engine: [search_returning] *)
(* ===================================================================== *)

Module Search.

(** Modelled from the spec: the dataset store and the query engine
    ([index.datasets] of [datacube/index/_api.py]) are not among the
    sources.  A dataset has an id, the values of its search fields and
    "zero-or-more Locations". *)
Record Dataset : Type := mkDataset {
  ds_id : string;
  ds_fields : gmap string string;
  ds_locations : list string
}.

(** A query maps field names to a literal or to an OR-set of literals. *)
Inductive Term : Type :=
| Literal (v : string)
| AnyOf (vs : list string).

Definition Query : Type := list (string * Term).

Definition term_holds (t : Term) (v : string) : bool :=
  match t with
  | Literal w => String.eqb v w
  | AnyOf ws => existsb (String.eqb v) ws
  end.

(** Modelled from the spec: the predicate of a query, the conjunction
    over its field names; an "absent field" means no match. *)
Definition matches (q : Query) (d : Dataset) : bool :=
  forallb (fun '(f, t) =>
             match ds_fields d !! f with
             | Some v => term_holds t v
             | None => false
             end) q.

Definition search (q : Query) (st : list Dataset) : list Dataset :=
  List.filter (matches q) st.

(** One cell of a result row. *)
Definition project1 (d : Dataset) (uri : option string) (f : string)
  : option string :=
  if String.eqb f "id" then Some (ds_id d)
  else if String.eqb f "uri" then uri
  else ds_fields d !! f.

Definition project (fields : list string) (d : Dataset) (uri : option string)
  : list (option string) :=
  map (project1 d uri) fields.

(** Modelled from the spec: [search_returning(fields, ...)] "projects a
    caller-chosen field tuple; if uri/location is among the requested
    fields, one result row is emitted per (dataset, location) pair". *)
Definition search_returning (fields : list string) (q : Query)
           (st : list Dataset) : list (list (option string)) :=
  if existsb (String.eqb "uri") fields
  then flat_map (fun d => map (fun u => project fields d (Some u)) (ds_locations d))
                (search q st)
  else map (fun d => project fields d None) (search q st).

(** [index.datasets.add_location(dataset, uri)]: locations are kept
    newest first. *)
Definition add_location (id uri : string) (st : list Dataset) : list Dataset :=
  map (fun d => if String.eqb (ds_id d) id
                then mkDataset (ds_id d) (ds_fields d) (uri :: ds_locations d)
                else d) st.

(** The rows of a result whose first cell is the given id. *)
Definition rows_of_id (id : string) (rows : list (list (option string)))
  : list (list (option string)) :=
  List.filter (fun row => match row with
                          | Some i :: _ => String.eqb i id
                          | _ => false
                          end) rows.

(** *** The store of [test_search_returning_rows] *)

Definition telemetry_fields : gmap string string :=
  <["platform" := "LANDSAT_8"]> (<["instrument" := "OLI_TIRS"]> ∅).

Definition telemetry_query : Query :=
  [("platform", Literal "LANDSAT_8"); ("instrument", Literal "OLI_TIRS")].

(** Two telemetry datasets without locations, then the first one given
    two locations and the second one a third. *)
Definition telemetry_store : list Dataset :=
  [mkDataset "dataset-1" telemetry_fields []; mkDataset "dataset-2" telemetry_fields []].

Definition telemetry_store_located : list Dataset :=
  add_location "dataset-2" "mdss://c10/tmp/something"
    (add_location "dataset-1" "file:///tmp/test2"
       (add_location "dataset-1" "file:///tmp/test1" telemetry_store)).

End Search.


(* ===================================================================== *)
(** ** datacube/drivers/manager.py: writes and registry invariants *)
(* ===================================================================== *)

Module ManagerDispatch.

Import Manager.

(** [DriverManager.write_dataset_to_storage] and
    [DriverManager.index_datasets] go to the current driver, whatever the
    dataset's uris; [driver_op] is the plugin's side of the call.  With no
    current driver ([self.driver] is [None]) the attribute access fails:
    [None] here. *)
Definition write_dataset_to_storage {A} (m : DriverManager)
           (driver_op : Driver -> A) : option A :=
  match driver m with
  | Some d => Some (driver_op d)
  | None => None
  end.

Definition index_datasets {A} (m : DriverManager)
           (driver_index_op : Driver -> A) : option A :=
  match driver m with
  | Some d => Some (driver_index_op d)
  | None => None
  end.

(** The registry is keyed by driver name: no key occurs twice, and each
    key is the [name] of the driver stored under it. *)
Definition registry_ok (ds : PyDict.t Driver) : Prop :=
  List.NoDup (PyDict.keys ds) /\ forall k d, In (k, d) ds -> k = name d.

(** The current driver, when there is one, is the driver registered under
    its own name. *)
Definition current_registered (m : DriverManager) : Prop :=
  forall d, driver m = Some d -> PyDict.get (drivers m) (name d) = Some d.

(** A second plugin that registers under the NetCDF driver's name, and a
    manager left with a current driver from before a reload. *)
Definition netcdf_override_plugin : Plugin :=
  mkPlugin true "NetCDF CF" "NetCDFOverride" false true
           (fun n db => mkDriver n "netcdf" db true).

Definition s3_plugin : Plugin :=
  mkPlugin true "s3" "S3Driver" false true
           (fun n db => mkDriver n "s3" db true).

Definition manager_on_netcdf : DriverManager :=
  mkManager 1%nat (Some (mkDriver "NetCDF CF" "file" 1%nat true))
            [("NetCDF CF", mkDriver "NetCDF CF" "file" 1%nat true)].

End ManagerDispatch.

(* ===================================================================== *)
(** ** datacube/drivers/manager.py: discovery with its exceptions *)
(* ===================================================================== *)

Module Discovery.

Import Manager.

(** An exception raised while a plugin is being loaded: its class and
    its message.  Classes other than [ImportError] (and its subclasses,
    which [ImportError] stands for) are never caught by the loop. *)
Record Exc : Type := mkExc {
  exc_class : string;
  exc_message : string
}.

(** What the loop of [reload_drivers] meets under one [*/__init__.py],
    every step that can raise included.  [found] is what the steps give
    when they return.  The other fields say which step raises, with what:
    loading the package's [__init__.py]; reading [spec[2]] and joining the
    path; loading the driver module with an exception that is no
    [ImportError] (an [ImportError] is [import_fails found]); looking the
    class up and testing [issubclass]; calling the constructor; calling
    [requirements_satisfied()]. *)
Record Package : Type := mkPackage {
  init_raises : option Exc;
  found : Plugin;
  spec_raises : option Exc;
  module_raises : option Exc;
  class_raises : option Exc;
  construct_raises : option Exc;
  probe_raises : option Exc
}.

(** One iteration of the discovery loop: the registry after it, or the
    exception that leaves the loop.  Only the [ImportError] of the driver
    module's load is caught. *)
Definition load_package (db : Conn) (ds : PyDict.t Driver) (p : Package)
  : PyDict.t Driver + Exc :=
  match init_raises p with
  | Some e => inr e
  | None =>
      if has_driver_spec (found p) then
        match spec_raises p with
        | Some e => inr e
        | None =>
            if import_fails (found p) then inl ds           (* warning, continue *)
            else
              match module_raises p with
              | Some e => inr e
              | None =>
                  match class_raises p with
                  | Some e => inr e
                  | None =>
                      if is_driver_subclass (found p) then
                        match construct_raises p with
                        | Some e => inr e
                        | None =>
                            let driver :=
                              construct (found p) (spec_name (found p)) db in
                            match probe_raises p with
                            | Some e => inr e
                            | None =>
                                if negb (requirements_satisfied driver)
                                then inl ds                 (* info, continue *)
                                else inl (PyDict.set ds (name driver) driver)
                            end
                        end
                      else inl ds                           (* warning *)
                  end
              end
        end
      else inl ds
  end.

(** The loop [for init_path in ...glob('*/__init__.py')]: the registry
    built, and the exception that ended the loop early, if any. *)
Fixpoint discover (db : Conn) (packages : list Package) (ds : PyDict.t Driver)
  : PyDict.t Driver * option Exc :=
  match packages with
  | [] => (ds, None)
  | p :: rest =>
      match load_package db ds p with
      | inl ds' => discover db rest ds'
      | inr e => (ds, Some e)
      end
  end.

(** How a call ends: it returns, it raises an exception of its own, or
    an exception from a plugin passes through it. *)
Inductive Outcome (A : Type) : Type :=
| Returns (a : A)
| Raises (e : exn)
| Propagates (e : Exc).
Arguments Returns {A} a.
Arguments Raises {A} e.
Arguments Propagates {A} e.

(** [DriverManager.reload_drivers]: the manager after the call (with the
    registry as far as it was built), the connections closed on the way
    and how the call ends. *)
Definition reload_drivers (packages : list Package) (m : DriverManager) (db : Conn)
  : DriverManager * list Conn * Outcome unit :=
  let closed := close_drivers m in
  match discover db packages [] with
  | (ds, Some e) => (mkManager (index m) (driver m) ds, closed, Propagates e)
  | (ds, None) =>
      if (PyDict.len ds <? 1)%nat
      then (mkManager (index m) (driver m) ds, closed,
            Raises (RuntimeError "No plugin driver found, Datacube cannot operate."))
      else (mkManager (index m) (driver m) ds, closed, Returns tt)
  end.

(** [DriverManager.__init__]: a manager is returned only when neither
    the discovery nor [set_current_driver] raises. *)
Definition init (packages : list Package) (db : Conn) : Outcome DriverManager :=
  match reload_drivers packages (mkManager db None []) db with
  | (_, _, Propagates e) => Propagates e
  | (_, _, Raises e) => Raises e
  | (m1, _, Returns _) =>
      match set_current_driver m1 (Some _DEFAULT_DRIVER) with
      | (_, Raise e) => Raises e
      | (m2, Ok _) => Returns m2
      end
  end.


(** A package of which every step returns. *)
Definition package_of (p : Plugin) : Package :=
  mkPackage None p None None None None None.


(** *** Packages to run the loop on *)

(** A package whose [__init__.py] fails to import, one whose driver
    module has a syntax error, one whose constructor raises and one whose
    probe raises; and the packages of which every step returns. *)
Definition init_import_error_package : Package :=
  mkPackage (Some (mkExc "ImportError" "No module named boto3"))
            ManagerDispatch.s3_plugin None None None None None.


Definition constructor_error_package : Package :=
  mkPackage None ManagerDispatch.s3_plugin None None None
            (Some (mkExc "OperationalError" "could not connect to server")) None.

Definition probe_error_package : Package :=
  mkPackage None ManagerDispatch.s3_plugin None None None None
            (Some (mkExc "KeyError" "AWS_DEFAULT_REGION")).

Definition netcdf_package : Package := package_of netcdf_plugin.
Definition no_spec_package : Package := package_of no_spec_plugin.
Definition not_a_driver_package : Package := package_of not_a_driver_plugin.

End Discovery.

(* ===================================================================== *)
(** ** datacube/ui/common.py: metadata paths and the csv writer *)
(* ===================================================================== *)

Module UiPaths.

Section Paths.

(** [pathlib.Path] and the file system behind it, as far as the two
    functions use them; [is_supported_document_type] is
    [datacube.utils]'s, [repr] is [%r] of a path. *)
Variable Path : Type.
Variable is_file : Path -> bool.
Variable is_dir : Path -> bool.
Variable parent : Path -> Path.
Variable name : Path -> string.
Variable joinpath : Path -> string -> Path.
Variable glob : Path -> string -> list Path.
Variable is_supported_document_type : Path -> bool.
Variable repr : Path -> string.

(** [find_any_metadata_suffix(path)]; [Ok None] is the [None] it returns
    when nothing is found. *)
Definition find_any_metadata_suffix (path : Path) : result (option Path) :=
  let existing_paths :=
    List.filter is_supported_document_type (glob (parent path) (name path ++ "*")) in
  match existing_paths with
  | [] => Ok None
  | [found] => Ok (Some found)
  | _ => Raise (ValueError ("Multiple matched metadata files: ["
                              ++ join ", " (map repr existing_paths) ++ "]"))
  end.

(** [get_metadata_path(dataset_path)] *)
Definition get_metadata_path (dataset_path : Path) : result Path :=
  if is_file dataset_path && is_supported_document_type dataset_path
  then Ok dataset_path
  else
    let expected_name :=
      joinpath (parent dataset_path) (name dataset_path ++ ".agdc-md") in
    match find_any_metadata_suffix expected_name with
    | Raise e => Raise e
    | Ok (Some found) => Ok found
    | Ok None =>
        if is_dir dataset_path then
          match find_any_metadata_suffix (joinpath dataset_path "agdc-metadata") with
          | Raise e => Raise e
          | Ok (Some found) => Ok found
          | Ok None =>
              Raise (ValueError ("No metadata found for input " ++ repr dataset_path))
          end
        else Raise (ValueError ("No metadata found for input " ++ repr dataset_path))
    end.

(** The supported documents a glob for the given stem finds. *)
Definition candidates (dir : Path) (stem : string) : list Path :=
  List.filter is_supported_document_type (glob dir (stem ++ "*")).

End Paths.

(** *** A small directory tree to run the functions on *)

(** A path is its components, outermost first. *)
Definition FsPath : Type := list string.

Definition fs_parent (p : FsPath) : FsPath := List.removelast p.
Definition fs_name (p : FsPath) : string := List.last p EmptyString.
Definition fs_joinpath (p : FsPath) (s : string) : FsPath := (p ++ [s])%list.
Definition fs_repr (p : FsPath) : string := join "/" p.

Definition fs_path_eqb (p q : FsPath) : bool :=
  (Nat.eqb (List.length p) (List.length q))
  && forallb (fun ab => String.eqb (fst ab) (snd ab)) (combine p q).

Definition ends_with (suffix s : string) : bool :=
  let n := String.length s in
  let k := String.length suffix in
  (k <=? n)%nat && String.eqb (String.substring (n - k) k s) suffix.

Definition fs_files : list FsPath :=
  [["data"; "scene.nc"]; ["data"; "scene.nc.agdc-md.yaml"];
   ["data"; "pkg"; "agdc-metadata.yaml"]; ["data"; "pkg"; "band1.tif"];
   ["data"; "two.nc"]; ["data"; "two.nc.agdc-md.yaml"]; ["data"; "two.nc.agdc-md.json"];
   ["data"; "direct.yaml"]].

Definition fs_dirs : list FsPath := [["data"]; ["data"; "pkg"]].

Definition fs_is_file (p : FsPath) : bool := existsb (fs_path_eqb p) fs_files.
Definition fs_is_dir (p : FsPath) : bool := existsb (fs_path_eqb p) fs_dirs.

(** A pattern [stem*] matches the names that start with [stem]. *)
Definition fs_glob (dir : FsPath) (pattern : string) : list FsPath :=
  let stem := String.substring 0 (String.length pattern - 1) pattern in
  List.filter (fun p => fs_path_eqb (fs_parent p) dir && String.prefix stem (fs_name p))
              (fs_files ++ fs_dirs)%list.

Definition fs_supported (p : FsPath) : bool :=
  ends_with ".yaml" (fs_name p) || ends_with ".json" (fs_name p).

Definition fs_get_metadata_path : FsPath -> result FsPath :=
  get_metadata_path FsPath fs_is_file fs_is_dir fs_parent fs_name fs_joinpath
                    fs_glob fs_supported fs_repr.

End UiPaths.

Module UiOutput.

Import UiCommon.

Definition info_id (i : Info) : string :=
  match i with mkInfo x _ _ _ _ _ _ _ => x end.
Definition info_product (i : Info) : string :=
  match i with mkInfo _ x _ _ _ _ _ _ => x end.
Definition info_status (i : Info) : string :=
  match i with mkInfo _ _ x _ _ _ _ _ => x end.
Definition info_locations (i : Info) : list string :=
  match i with mkInfo _ _ _ _ x _ _ _ => x end.

(** [add_first_location] of [_write_csv]: the value stored under
    ['location']. *)
Definition add_first_location (row : Info) : option string :=
  match info_locations row with
  | [] => None
  | first :: _ => Some first
  end.

Definition csv_fieldnames : list string := ["id"; "status"; "product"; "location"].

(** What the [DictWriter] reads of a row under one of its field names;
    every other key of the row is ignored ([extrasaction='ignore']). *)
Definition csv_cell (row : Info) (key : string) : option string :=
  if String.eqb key "id" then Some (info_id row)
  else if String.eqb key "status" then Some (info_status row)
  else if String.eqb key "product" then Some (info_product row)
  else if String.eqb key "location" then add_first_location row
  else None.

(** [_write_csv(infos)]: the rows handed to the csv writer, the header
    first; a cell is [None] where the row holds [None]. *)
Definition _write_csv (infos : list Info) : list (list (option string)) :=
  map Some csv_fieldnames :: map (fun row => map (csv_cell row) csv_fieldnames) infos.

(** An info resolved in one direction only: with [want_sources] it and
    everything under its ['sources'] has no ['derived'] entry, and the
    other way round. *)
Fixpoint lineage_only (want_sources : bool) (i : Info) {struct i} : bool :=
  match i with
  | mkInfo _ _ _ _ _ _ srcs ders =>
      if want_sources
      then match ders with Some _ => false | None => true end
           && match srcs with
              | Some l => forallb (fun ks => lineage_only true (snd ks)) l
              | None => true
              end
      else match srcs with Some _ => false | None => true end
           && match ders with
              | Some l => forallb (lineage_only false) l
              | None => true
              end
  end.

(** A dataset with two sources, in a catalogue where it has one derived
    dataset; the three others have no lineage of their own. *)
Definition nbar_scene : Dataset :=
  mkDataset "nbar-1" "ls5_nbar_scene" false None
            ["file:///g/data/nbar.nc"; "file:///g/old/nbar.nc"]
            [("platform", "LANDSAT_5")] [("ortho", 1%nat); ("satellite_telemetry_data", 2%nat)].

Definition lineage_index : Index :=
  mkIndex (fun r => match r with
                    | 1%nat => mkDataset "ortho-1" "ls5_ortho" false None [] [] []
                    | 2%nat => mkDataset "telem-1" "ls5_telem" true None ["file:///g/data/t.nc"] [] []
                    | _ => mkDataset "pq-1" "ls5_pq" false None [] [] [(("nbar"), 0%nat)]
                    end)
          (fun i => if String.eqb i "nbar-1" then [3%nat] else []).

End UiOutput.

(* ===================================================================== *)
(** ** datacube/scripts/file_cli.py: [file info] and the restore count *)
(* ===================================================================== *)

Module FileCliInfo.

Section Info.

Variable index : UiCommon.Index.
Variable get_datasets_for_location : string -> list UiCommon.Dataset.
Variable _full_uri : string -> string.

(** The generator [get_datasets] of [info_cmd], run to its end: the
    datasets it yields and the final [missing_paths[0]]. *)
Fixpoint get_datasets (file_location : list string) (missing_paths : nat)
  : list UiCommon.Dataset * nat :=
  match file_location with
  | [] => ([], missing_paths)
  | file_ :: rest =>
      let file_uri := _full_uri file_ in
      let datasets := get_datasets_for_location file_uri in
      let count := List.length datasets in
      let (more, missing) :=
        get_datasets rest (if Nat.eqb count 0 then S missing_paths else missing_paths) in
      ((datasets ++ more)%list, missing)
  end.

(** [info_cmd]: the infos handed to the output writer, which consumes
    the whole generator, and the argument of [sys.exit]. *)
Definition info_cmd (show_sources show_derived : bool) (max_depth : Z)
           (files : list string) : list UiCommon.Info * nat :=
  let (datasets, missing) := get_datasets files O in
  (UiCommon.write_datasets index datasets show_sources show_derived max_depth, missing).

End Info.

(** The number of answers before the first [true] one. *)
Fixpoint leading_false (answers : list bool) : nat :=
  match answers with
  | [] => O
  | true :: _ => O
  | false :: rest => S (leading_false rest)
  end.

Section RestoreCount.

Variable Catalogue : Type.
Variable DatasetId : Type.
Variable get_datasets_for_location : Catalogue -> string -> list DatasetId.
Variable restore_location : Catalogue -> DatasetId -> string -> bool * Catalogue.
Variable _full_uri : string -> string.

(** For each file in turn, on the evolving catalogue, the number of
    datasets at the file that [restore_location] is called on before the
    first call that answers true (all of them when none does), summed
    over the files. *)
Fixpoint restore_count_of (files : list string) (st : Catalogue) : nat * Catalogue :=
  match files with
  | [] => (O, st)
  | file_ :: rest =>
      let file_uri := _full_uri file_ in
      let (answers, st') :=
        FileCli.toggle_answers Catalogue DatasetId restore_location false file_uri
                               (get_datasets_for_location st file_uri) st in
      let (n, st'') := restore_count_of rest st' in
      ((leading_false answers + n)%nat, st'')
  end.

End RestoreCount.

End FileCliInfo.

(* ===================================================================== *)
(** * Part II: properties *)
(* ===================================================================== *)

(** ** Python dicts and strings *)

Section PyDictFacts.

Context {V : Type}.

Lemma pydict_get_keys (d : PyDict.t V) (k : string) :
  In k (PyDict.keys d) <-> exists v, PyDict.get d k = Some v.
Proof.
  induction d as [|[k' v'] d IH]; simpl.
  - split; [tauto | intros [v Hv]; discriminate].
  - destruct (String.eqb_spec k' k) as [->|Hne].
    + split; eauto.
    + rewrite IH. split; [intros [?|?]; [contradiction | assumption] | auto].
Qed.

Lemma pydict_get_none (d : PyDict.t V) (k : string) :
  ~ In k (PyDict.keys d) <-> PyDict.get d k = None.
Proof.
  rewrite pydict_get_keys. destruct (PyDict.get d k) as [v|].
  - split; [intros H; exfalso; apply H; eauto | discriminate].
  - split; [reflexivity | intros _ [v Hv]; discriminate].
Qed.

Lemma pydict_get_values (d : PyDict.t V) (k : string) (v : V) :
  PyDict.get d k = Some v -> In v (PyDict.values d).
Proof.
  induction d as [|[k' v'] d IH]; simpl; [discriminate |].
  destruct (String.eqb k' k); [intros [= ->]; auto | auto].
Qed.

Lemma pydict_set_get_same (d : PyDict.t V) (k : string) (v : V) :
  PyDict.get (PyDict.set d k v) k = Some v.
Proof.
  induction d as [|[k' v'] d IH]; simpl.
  - now rewrite String.eqb_refl.
  - destruct (String.eqb k' k) eqn:E; simpl; rewrite E; [reflexivity | exact IH].
Qed.

Lemma pydict_set_get_other (d : PyDict.t V) (k k0 : string) (v : V) :
  k <> k0 -> PyDict.get (PyDict.set d k v) k0 = PyDict.get d k0.
Proof.
  intros Hne. induction d as [|[k' v'] d IH]; simpl.
  - destruct (String.eqb_spec k k0); [contradiction | reflexivity].
  - destruct (String.eqb_spec k' k) as [->|Hk]; simpl.
    + destruct (String.eqb_spec k k0); [contradiction | reflexivity].
    + destruct (String.eqb k' k0); [reflexivity | exact IH].
Qed.

Lemma pydict_set_values (d : PyDict.t V) (k : string) (v x : V) :
  In x (PyDict.values (PyDict.set d k v)) -> x = v \/ In x (PyDict.values d).
Proof.
  induction d as [|[k' v'] d IH]; simpl.
  - intros [<-|[]]; auto.
  - destruct (String.eqb k' k); simpl.
    + intros [<-|H]; auto.
    + intros [<-|H]; [auto | destruct (IH H); auto].
Qed.

Lemma pydict_set_nonempty (d : PyDict.t V) (k : string) (v : V) :
  PyDict.set d k v <> [].
Proof. destruct d as [|[k' v'] d]; simpl; [|destruct (String.eqb k' k)]; discriminate. Qed.

End PyDictFacts.

Lemma split1_absent (sep : ascii) (s : string) :
  contains_char sep s = false -> split1 sep s = [s].
Proof.
  induction s as [|c s IH]; simpl; [reflexivity |].
  destruct (Ascii.eqb c sep); simpl; [discriminate |].
  intros H. now rewrite (IH H).
Qed.

Lemma split1_first (sep : ascii) (p r : string) :
  contains_char sep p = false ->
  split1 sep (String.append p (String sep r)) = [p; r].
Proof.
  induction p as [|c p IH]; simpl.
  - intros _. now rewrite Ascii.eqb_refl.
  - destruct (Ascii.eqb c sep); simpl; [discriminate |].
    intros H. now rewrite (IH H).
Qed.

Lemma split1_two (sep : ascii) (s p0 p1 : string) :
  split1 sep s = [p0; p1] ->
  contains_char sep p0 = false /\ s = String.append p0 (String sep p1).
Proof.
  revert p0. induction s as [|c s IH]; simpl; intros p0; [discriminate |].
  destruct (Ascii.eqb_spec c sep) as [->|Hne].
  - intros [= <- <-]. auto.
  - destruct (split1 sep s) as [|hd tl] eqn:E; [discriminate |].
    intros [= <- ->]. destruct (IH hd eq_refl) as [Hc ->].
    simpl. split; [|reflexivity].
    destruct (Ascii.eqb_spec c sep); [contradiction | exact Hc].
Qed.

(** ** The driver manager *)

Section ManagerFacts.

Import Manager.

Lemma first_with_scheme_some (scheme : string) (ds : list Driver) (d : Driver) :
  first_with_scheme scheme ds = Some d -> In d ds /\ uri_scheme d = scheme.
Proof.
  induction ds as [|d0 ds IH]; simpl; [discriminate |].
  destruct (String.eqb_spec scheme (uri_scheme d0)) as [E|_].
  - intros [= <-]. auto.
  - intros H. destruct (IH H). auto.
Qed.

Lemma first_with_scheme_none (scheme : string) (ds : list Driver) :
  first_with_scheme scheme ds = None <->
  forall d, In d ds -> uri_scheme d <> scheme.
Proof.
  induction ds as [|d0 ds IH]; simpl.
  - split; [intros _ d [] | reflexivity].
  - destruct (String.eqb_spec scheme (uri_scheme d0)) as [E|Hne].
    + split; [discriminate |]. intros H. exfalso. apply (H d0); auto.
    + rewrite IH. split.
      * intros H d [<-|Hd]; [congruence | auto].
      * intros H d Hd. apply H. auto.
Qed.

(** C4.  Routing by scheme reads the first uri only: the scheme is the
    text before its first colon, and [file] when there is no uri (or no
    list at all) or the first uri has no colon.  [get_driver_by_scheme]
    answers with a registered driver of that scheme when there is one and
    raises [ValueError] when there is none; [get_datasource] and
    [add_specifics] go to the driver so chosen. *)
Theorem get_driver_by_scheme_routes_on_first_uri (m : DriverManager) :
  scheme_of None = "file" /\
  scheme_of (Some []) = "file" /\
  (forall u rest, contains_char ":" u = false ->
                  scheme_of (Some (u :: rest)) = "file") /\
  (forall p r rest, contains_char ":" p = false ->
                    scheme_of (Some (String.append p (String ":" r) :: rest)) = p) /\
  (forall u rest,
      get_driver_by_scheme m (Some (u :: rest)) = get_driver_by_scheme m (Some [u])) /\
  (forall uris d,
      get_driver_by_scheme m uris = Ok d ->
      In d (PyDict.values (drivers m)) /\ uri_scheme d = scheme_of uris) /\
  (forall uris,
      (exists d, In d (PyDict.values (drivers m)) /\ uri_scheme d = scheme_of uris) ->
      exists d, get_driver_by_scheme m uris = Ok d) /\
  (forall uris,
      (forall d, In d (PyDict.values (drivers m)) -> uri_scheme d <> scheme_of uris) ->
      is_value_error (get_driver_by_scheme m uris) = true) /\
  (forall (DS : Type) (op : Driver -> DS) uris,
      get_datasource m uris op =
        match get_driver_by_scheme m uris with Ok d => Ok (op d) | Raise e => Raise e end
      /\ add_specifics m uris op = get_datasource m uris op).
Proof.
  repeat split.
  - intros u rest Hu. unfold scheme_of. now rewrite (split1_absent _ _ Hu).
  - intros p r rest Hp. unfold scheme_of. now rewrite (split1_first _ _ r Hp).
  - unfold get_driver_by_scheme in H.
    destruct (first_with_scheme _ _) as [d0|] eqn:E; [|discriminate].
    injection H as <-. now apply first_with_scheme_some in E.
  - unfold get_driver_by_scheme in H.
    destruct (first_with_scheme _ _) as [d0|] eqn:E; [|discriminate].
    injection H as <-. now apply first_with_scheme_some in E.
  - intros uris [d [Hin Hs]]. unfold get_driver_by_scheme.
    destruct (first_with_scheme _ _) as [d0|] eqn:E; [eauto |].
    exfalso. rewrite first_with_scheme_none in E. exact (E d Hin Hs).
  - intros uris Hnone. unfold get_driver_by_scheme.
    apply first_with_scheme_none in Hnone. now rewrite Hnone.
Qed.

Lemma get_driver_by_scheme_routes_on_first_uri_witness :
  scheme_of (Some ["s3://bucket/key"; "file:///tmp/a.nc"]) = "s3" /\
  is_value_error
    (get_driver_by_scheme two_scheme_manager (Some ["mdss://c10/tmp/something"])) = true.
Proof.
  destruct (get_driver_by_scheme_routes_on_first_uri two_scheme_manager)
    as (_ & _ & _ & Hscheme & _ & _ & _ & Hraise & _).
  split.
  - apply (Hscheme "s3" "//bucket/key" ["file:///tmp/a.nc"]). reflexivity.
  - apply Hraise. intros d Hd. vm_compute in Hd.
    destruct Hd as [<-|[<-|[]]]; vm_compute; discriminate.
Defined.

(** C10.  [set_current_driver] checks the name before it assigns: a name
    that is not a key of the registered drivers -- [None] among them --
    raises [ValueError] and leaves the manager as it was; a registered
    name makes the driver stored under it the current one. *)
Theorem set_current_driver_checks_then_assigns (m : DriverManager) :
  (forall n, ~ In n (PyDict.keys (drivers m)) ->
             exists msg, set_current_driver m (Some n) = (m, Raise (ValueError msg))) /\
  (exists msg, set_current_driver m None = (m, Raise (ValueError msg))) /\
  (forall n, In n (PyDict.keys (drivers m)) ->
             exists d m',
               PyDict.get (drivers m) n = Some d /\
               set_current_driver m (Some n) = (m', Ok tt) /\
               driver m' = Some d /\ drivers m' = drivers m /\ index m' = index m).
Proof.
  split; [|split].
  - intros n Hn. apply pydict_get_none in Hn.
    unfold set_current_driver. rewrite Hn. eauto.
  - unfold set_current_driver. eauto.
  - intros n Hn. apply pydict_get_keys in Hn. destruct Hn as [d Hd].
    exists d. eexists. unfold set_current_driver. rewrite Hd.
    repeat split; reflexivity.
Qed.

Lemma set_current_driver_checks_then_assigns_witness :
  exists d m',
    PyDict.get (drivers two_scheme_manager) "s3" = Some d /\
    set_current_driver two_scheme_manager (Some "s3") = (m', Ok tt) /\
    driver m' = Some d /\ drivers m' = drivers two_scheme_manager /\
    index m' = index two_scheme_manager.
Proof.
  apply (set_current_driver_checks_then_assigns two_scheme_manager).
  simpl. auto.
Defined.

End ManagerFacts.

Section ManagerLifecycle.

Import Manager.

(** The dict the discovery loop builds from the plugins that pass. *)
Lemma load_plugin_passes (db : Conn) (ds : PyDict.t Driver) (p : Plugin) :
  load_plugin db ds p =
    if passes db p
    then PyDict.set ds (name (construct p (spec_name p) db)) (construct p (spec_name p) db)
    else ds.
Proof.
  unfold load_plugin, passes.
  destruct (has_driver_spec p), (import_fails p), (is_driver_subclass p); simpl;
    try reflexivity.
  destruct (requirements_satisfied _); reflexivity.
Qed.

Lemma discovery_skips_failures (db : Conn) (plugins : list Plugin) (ds : PyDict.t Driver) :
  fold_left (load_plugin db) plugins ds =
  fold_left (load_plugin db) (List.filter (passes db) plugins) ds.
Proof.
  revert ds. induction plugins as [|p ps IH]; intros ds; simpl; [reflexivity |].
  rewrite load_plugin_passes. destruct (passes db p) eqn:E; simpl.
  - rewrite load_plugin_passes, E. apply IH.
  - apply IH.
Qed.

Lemma discovery_values (db : Conn) (plugins : list Plugin) (ds : PyDict.t Driver) (d : Driver) :
  In d (PyDict.values (fold_left (load_plugin db) plugins ds)) ->
  In d (PyDict.values ds) \/
  exists p, In p plugins /\ passes db p = true /\ d = construct p (spec_name p) db.
Proof.
  revert ds. induction plugins as [|p ps IH]; intros ds; simpl; [auto |].
  intros H. apply IH in H. destruct H as [H|(q & Hq & Hpass & ->)].
  - rewrite load_plugin_passes in H. destruct (passes db p) eqn:E.
    + apply pydict_set_values in H. destruct H as [->|H]; [right | auto].
      exists p. auto.
    + auto.
  - right. exists q. auto.
Qed.

Lemma discovery_keeps_keys (db : Conn) (plugins : list Plugin) (ds : PyDict.t Driver) (k : string) :
  PyDict.mem ds k = true ->
  PyDict.mem (fold_left (load_plugin db) plugins ds) k = true.
Proof.
  revert ds. induction plugins as [|p ps IH]; intros ds; simpl; [auto |].
  intros H. apply IH. rewrite load_plugin_passes.
  destruct (passes db p); [|exact H].
  unfold PyDict.mem in *.
  destruct (String.eqb_spec (name (construct p (spec_name p) db)) k) as [<-|Hne].
  - now rewrite pydict_set_get_same.
  - now rewrite pydict_set_get_other.
Qed.

Lemma discovery_registers (db : Conn) (plugins : list Plugin) (ds : PyDict.t Driver) (p : Plugin) :
  In p plugins -> passes db p = true ->
  PyDict.mem (fold_left (load_plugin db) plugins ds)
             (name (construct p (spec_name p) db)) = true.
Proof.
  revert ds. induction plugins as [|q qs IH]; intros ds; simpl; [tauto |].
  intros [->|Hin] Hpass.
  - apply discovery_keeps_keys. rewrite load_plugin_passes, Hpass.
    unfold PyDict.mem. now rewrite pydict_set_get_same.
  - now apply IH.
Qed.

Lemma discovery_nonempty (db : Conn) (plugins : list Plugin) (ds : PyDict.t Driver) :
  ds <> [] -> fold_left (load_plugin db) plugins ds <> [].
Proof.
  revert ds. induction plugins as [|p ps IH]; intros ds H; simpl; [exact H |].
  apply IH. rewrite load_plugin_passes.
  destruct (passes db p); [apply pydict_set_nonempty | exact H].
Qed.

Lemma discovery_empty (db : Conn) (plugins : list Plugin) :
  fold_left (load_plugin db) plugins [] = [] <-> List.filter (passes db) plugins = [].
Proof.
  rewrite discovery_skips_failures.
  destruct (List.filter (passes db) plugins) as [|p ps] eqn:E; [tauto |].
  split; [|discriminate]. simpl. intros H. exfalso. revert H.
  apply discovery_nonempty. rewrite load_plugin_passes.
  assert (Hp : In p (List.filter (passes db) plugins)) by (rewrite E; left; reflexivity).
  apply filter_In in Hp. destruct Hp as [_ Hp].
  rewrite Hp. apply pydict_set_nonempty.
Qed.

Lemma reload_drivers_outcome (plugins : list Plugin) (m : DriverManager) (db : Conn) :
  reload_drivers plugins m db =
    (mkManager (index m) (driver m) (fold_left (load_plugin db) plugins []),
     close_drivers m,
     match fold_left (load_plugin db) plugins [] with
     | [] => Raise (RuntimeError "No plugin driver found, Datacube cannot operate.")
     | _ :: _ => Ok tt
     end).
Proof.
  unfold reload_drivers.
  destruct (fold_left (load_plugin db) plugins []); reflexivity.
Qed.

Lemma init_without_driver (plugins : list Plugin) (db : Conn) :
  fold_left (load_plugin db) plugins [] = [] ->
  is_runtime_error (init plugins db) = true.
Proof.
  intros H. unfold init. rewrite reload_drivers_outcome, H. reflexivity.
Qed.

(** The discovery loop on plugins of which no step raises outside the
    guarded import ([Discovery.reload_drivers] has the others): every
    registered driver is the instance of a plugin that passes, every
    plugin that passes has its name registered whatever failed before or
    after it, and the outcome is that of running on the passing plugins
    alone.  With nothing registered [reload_drivers] raises
    [RuntimeError], and so does [__init__]: no manager is returned. *)
Theorem reload_drivers_registers_passing_plugins
        (plugins : list Plugin) (m : DriverManager) (db : Conn) :
  let '(m', _, r) := reload_drivers plugins m db in
  (forall d, In d (PyDict.values (drivers m')) ->
             requirements_satisfied d = true /\
             exists p, In p plugins /\ passes db p = true /\
                       d = construct p (spec_name p) db) /\
  (forall p, In p plugins -> passes db p = true ->
             In (name (construct p (spec_name p) db)) (PyDict.keys (drivers m'))) /\
  reload_drivers plugins m db = reload_drivers (List.filter (passes db) plugins) m db /\
  (drivers m' = [] <-> List.filter (passes db) plugins = []) /\
  (drivers m' = [] -> is_runtime_error r = true /\
                      is_runtime_error (init plugins db) = true) /\
  (drivers m' <> [] -> r = Ok tt).
Proof.
  rewrite (reload_drivers_outcome (List.filter _ _)), <- discovery_skips_failures.
  rewrite reload_drivers_outcome. cbn [drivers].
  split; [|split; [|split; [|split; [|split]]]].
  - intros d Hd. apply discovery_values in Hd.
    destruct Hd as [[]|(p & Hp & Hpass & ->)]. split; [|eauto].
    unfold passes in Hpass. apply andb_prop in Hpass. tauto.
  - intros p Hp Hpass. apply pydict_get_keys.
    pose proof (discovery_registers db plugins [] p Hp Hpass) as Hmem.
    unfold PyDict.mem in Hmem.
    destruct (PyDict.get _ _) as [d|]; [eauto | discriminate].
  - reflexivity.
  - apply discovery_empty.
  - intros H. split; [now rewrite H | now apply init_without_driver].
  - destruct (fold_left (load_plugin db) plugins []); [congruence | reflexivity].
Qed.

Lemma reload_drivers_registers_passing_plugins_witness :
  In "NetCDF CF"
     (PyDict.keys
        (drivers
           (fst (fst (reload_drivers
                        [no_spec_plugin; broken_import_plugin; netcdf_plugin;
                         unmet_requirements_plugin; not_a_driver_plugin]
                        (mkManager 1%nat None []) 1%nat)))))
  /\ is_runtime_error
       (init [no_spec_plugin; broken_import_plugin; unmet_requirements_plugin] 1%nat) = true.
Proof.
  split.
  - pose proof (reload_drivers_registers_passing_plugins
                  [no_spec_plugin; broken_import_plugin; netcdf_plugin;
                   unmet_requirements_plugin; not_a_driver_plugin]
                  (mkManager 1%nat None []) 1%nat) as H.
    rewrite reload_drivers_outcome in *. cbv beta iota in H.
    destruct H as (_ & H & _).
    apply (H netcdf_plugin); [simpl; auto | reflexivity].
  - pose proof (reload_drivers_registers_passing_plugins
                  [no_spec_plugin; broken_import_plugin; unmet_requirements_plugin]
                  (mkManager 1%nat None []) 1%nat) as H.
    rewrite reload_drivers_outcome in H. cbv beta iota in H.
    destruct H as (_ & _ & _ & _ & H & _).
    apply H. reflexivity.
Defined.

End ManagerLifecycle.

Section ManagerClose.

Import Manager.

Lemma close_drivers_In (m : DriverManager) (c : Conn) :
  In c (close_drivers m) <->
  c <> index m /\ In c (map index_db (PyDict.values (drivers m))).
Proof.
  unfold close_drivers. rewrite !in_map_iff. split.
  - intros (d & <- & Hd). apply filter_In in Hd. destruct Hd as [Hd Hne].
    apply Bool.negb_true_iff, Nat.eqb_neq in Hne. eauto.
  - intros (Hne & d & <- & Hd). exists d. split; [reflexivity |].
    apply filter_In. split; [exact Hd |].
    now apply Bool.negb_true_iff, Nat.eqb_neq.
Qed.

Lemma close_drivers_side_connections (m : DriverManager) :
  close_drivers m = side_connections m.
Proof.
  unfold close_drivers, side_connections.
  induction (PyDict.values (drivers m)) as [|d ds IH]; [reflexivity |].
  cbn [List.filter map].
  destruct (negb (Nat.eqb (index_db d) (index m))); cbn [map]; now rewrite IH.
Qed.

Lemma close_count (m : DriverManager) (c : Conn) :
  count_occ Nat.eq_dec (close m) c =
  (count_occ Nat.eq_dec (close_drivers m) c + if Nat.eq_dec (index m) c then 1 else 0)%nat.
Proof.
  unfold close. rewrite count_occ_app. simpl.
  destruct (Nat.eq_dec (index m) c); reflexivity.
Qed.

(** C6, as the code has it.  [close] leaves out only the drivers whose
    index is on the generic index's connection.  When the other
    connections of the drivers' indexes are pairwise distinct -- every
    connection that two indexes share is the generic index's -- each
    connection behind the manager is closed exactly once, and nothing else
    is closed. *)
Theorem close_closes_each_connection_once (m : DriverManager) :
  List.NoDup (side_connections m) ->
  forall c,
    (In c (connections m) -> count_occ Nat.eq_dec (close m) c = 1%nat) /\
    (~ In c (connections m) -> count_occ Nat.eq_dec (close m) c = 0%nat).
Proof.
  intros Hnodup c. rewrite <- close_drivers_side_connections in Hnodup.
  rewrite close_count. unfold connections. split.
  - intros Hc. destruct (Nat.eq_dec (index m) c) as [<-|Hne].
    + assert (Hout : ~ In (index m) (close_drivers m))
        by (rewrite close_drivers_In; tauto).
      apply (count_occ_not_In Nat.eq_dec) in Hout. rewrite Hout. reflexivity.
    + destruct Hc as [Hc|Hc]; [contradiction |].
      assert (Hin : In c (close_drivers m))
        by (rewrite close_drivers_In; split; [congruence | exact Hc]).
      apply (count_occ_In Nat.eq_dec) in Hin.
      pose proof (proj1 (NoDup_count_occ Nat.eq_dec _) Hnodup c). lia.
  - intros Hc. destruct (Nat.eq_dec (index m) c) as [<-|Hne].
    + exfalso. apply Hc. left. reflexivity.
    + assert (Hout : ~ In c (close_drivers m)).
      { rewrite close_drivers_In. intros [_ H]. apply Hc. right. exact H. }
      apply (count_occ_not_In Nat.eq_dec) in Hout. rewrite Hout. reflexivity.
Qed.

Lemma close_closes_each_connection_once_witness :
  count_occ Nat.eq_dec (close own_connections_manager) 1%nat = 1%nat /\
  count_occ Nat.eq_dec (close own_connections_manager) 2%nat = 1%nat /\
  count_occ Nat.eq_dec (close own_connections_manager) 3%nat = 1%nat /\
  count_occ Nat.eq_dec (close own_connections_manager) 4%nat = 0%nat.
Proof.
  assert (Hnodup : List.NoDup (side_connections own_connections_manager)).
  { vm_compute. repeat constructor; simpl; intuition discriminate. }
  pose proof (close_closes_each_connection_once own_connections_manager Hnodup) as H.
  split; [|split; [|split]].
  - apply (H 1%nat). simpl. auto.
  - apply (H 2%nat). simpl. auto.
  - apply (H 3%nat). simpl. auto.
  - apply (H 4%nat). simpl. intuition discriminate.
Defined.

(** C6, as stated, fails: two drivers that share a connection of their
    own have it closed once each. *)
Lemma close_closes_shared_side_connection_twice :
  ~ (forall c, In c (connections side_connection_manager) ->
               count_occ Nat.eq_dec (close side_connection_manager) c = 1%nat).
Proof.
  intros H. specialize (H 2%nat). vm_compute in H.
  assert (E : 2%nat = 1%nat) by (apply H; auto).
  discriminate E.
Qed.

(** A connection other than the generic index's is closed once for each
    driver whose index is on it. *)
Lemma close_closes_side_connection_per_driver (m : DriverManager) (c : Conn) :
  c <> index m ->
  count_occ Nat.eq_dec (close m) c =
  count_occ Nat.eq_dec (map index_db (PyDict.values (drivers m))) c.
Proof.
  intros Hne. rewrite close_count, close_drivers_side_connections.
  destruct (Nat.eq_dec (index m) c) as [E|_]; [congruence |].
  rewrite Nat.add_0_r. unfold side_connections.
  induction (map index_db (PyDict.values (drivers m))) as [|x l IH]; [reflexivity |].
  cbn [List.filter]. destruct (Nat.eqb_spec x (index m)) as [->|Hx]; cbn [negb].
  - rewrite IH. cbn [count_occ]. destruct (Nat.eq_dec (index m) c); [congruence | reflexivity].
  - cbn [count_occ]. now rewrite IH.
Qed.

End ManagerClose.

(** ** Dataset infos *)

Section UiCommonFacts.

Import UiCommon.

Lemma fold_max_bounded (bound depth : Z) (l : list Z) :
  depth <= bound -> Forall (fun x => x <= bound) l ->
  fold_right Z.max depth l <= bound.
Proof.
  intros Hd Hl. induction Hl as [|x l Hx _ IH]; simpl; [exact Hd | lia].
Qed.

Lemma fold_max_at_least (depth : Z) (l : list Z) :
  depth <= fold_right Z.max depth l.
Proof. induction l as [|x l IH]; simpl; lia. Qed.

(** No level recorded in an info lies beyond [max_depth], from whatever
    level at or below it the call started. *)
Lemma build_dataset_info_deepest (index : Index) (dataset : Dataset)
      (show_sources show_derived : bool) (depth max_depth : Z) :
  depth <= max_depth ->
  deepest depth (build_dataset_info index dataset show_sources show_derived
                                    depth max_depth) <= max_depth.
Proof.
  funelim (build_dataset_info index dataset show_sources show_derived depth max_depth);
    intros Hle; simpl.
  - apply fold_max_bounded; [exact Hle |].
    apply Forall_app. split.
    + destruct show_sources; [|constructor].
      rewrite map_map, Forall_map. apply Forall_forall. intros ks _. simpl.
      match goal with IH : forall ks : string * Ref, _ |- _ => apply IH end. lia.
    + destruct show_derived; [|constructor].
      rewrite map_map, Forall_map. apply Forall_forall. intros r _. simpl.
      match goal with IH : forall r : Ref, _ |- _ => apply IH end. lia.
  - exact Hle.
Qed.

(** C8.  The recursion of [build_dataset_info] is on [max_depth - depth],
    so the function returns on every lineage, cyclic ones included (it is
    defined for every index and dataset).  Started at its default level 1
    with a positive [max_depth], no info it builds lies deeper than
    [max_depth]: at a level that has reached [max_depth] neither sources
    nor derived datasets are resolved, and below it each of them is built
    at the next level. *)
Theorem build_dataset_info_depth_guard (index : Index) (dataset : Dataset)
        (show_sources show_derived : bool) (max_depth : Z) :
  1 <= max_depth ->
  deepest 1 (build_dataset_info index dataset show_sources show_derived 1 max_depth)
    <= max_depth
  /\ (forall d depth,
        max_depth <= depth ->
        info_sources (build_dataset_info index d show_sources show_derived depth max_depth)
          = None
        /\ info_derived (build_dataset_info index d show_sources show_derived depth max_depth)
          = None)
  /\ (forall d depth,
        depth < max_depth ->
        info_sources (build_dataset_info index d true show_derived depth max_depth)
          = Some (map (fun ks =>
                         (fst ks,
                          build_dataset_info index (deref index (snd ks))
                                             true false (depth + 1) max_depth))
                      (sources d))
        /\ info_derived (build_dataset_info index d show_sources true depth max_depth)
          = Some (map (fun r =>
                         build_dataset_info index (deref index r)
                                            false true (depth + 1) max_depth)
                      (get_derived index (id d)))).
Proof.
  intros Hpos. split; [|split].
  - now apply build_dataset_info_deepest.
  - intros d depth Hge. simp build_dataset_info.
    destruct (Z_lt_dec depth max_depth) as [Hlt|Hnlt]; [lia |].
    simp build_dataset_info. split; reflexivity.
  - intros d depth Hlt. simp build_dataset_info.
    destruct (Z_lt_dec depth max_depth) as [Hlt'|Hge]; [|lia].
    simp build_dataset_info. split; reflexivity.
Qed.

(** On the cyclic lineage the walk stops at the guard. *)
Lemma build_dataset_info_depth_guard_witness :
  deepest 1 (build_dataset_info cyclic_index self_sourced true true 1 3) <= 3
  /\ calls (build_dataset_info cyclic_index self_sourced true true 1 3) = 5%nat.
Proof.
  split.
  - apply (build_dataset_info_depth_guard cyclic_index self_sourced true true 3). lia.
  - vm_compute. reflexivity.
Defined.

(** The guard is reached on a cycle: the walk goes as deep as allowed. *)
Lemma build_dataset_info_cycle_reaches_guard :
  deepest 1 (build_dataset_info cyclic_index self_sourced true false 1
                                default_max_depth) = default_max_depth.
Proof. vm_compute. reflexivity. Qed.

End UiCommonFacts.

(** ** The [file archive] and [file restore] commands *)

Section FileCliFacts.

Import FileCli.

Variable Catalogue : Type.
Variable DatasetId : Type.
Variable get_datasets_for_location : Catalogue -> string -> list DatasetId.
Variable archive_location : Catalogue -> DatasetId -> string -> bool * Catalogue.
Variable restore_location : Catalogue -> DatasetId -> string -> bool * Catalogue.
Variable _full_uri : string -> string.

Local Abbreviation archive_datasets :=
  (archive_datasets Catalogue DatasetId archive_location).
Local Abbreviation archive_files :=
  (archive_files Catalogue DatasetId get_datasets_for_location archive_location _full_uri).
Local Abbreviation archive_cmd :=
  (archive_cmd Catalogue DatasetId get_datasets_for_location archive_location _full_uri).
Local Abbreviation restore_files :=
  (restore_files Catalogue DatasetId get_datasets_for_location restore_location _full_uri).
Local Abbreviation restore_cmd :=
  (restore_cmd Catalogue DatasetId get_datasets_for_location restore_location _full_uri).
Local Abbreviation toggle_answers := (toggle_answers Catalogue DatasetId).
Local Abbreviation files_without_change :=
  (files_without_change Catalogue DatasetId get_datasets_for_location _full_uri).

Lemma archive_datasets_counts (dry_run : bool) (file_uri : string)
      (to_process : list DatasetId) (st : Catalogue) (n : nat) :
  archive_datasets dry_run file_uri to_process st n =
    let (answers, st') :=
      toggle_answers archive_location dry_run file_uri to_process st in
    ((n + count_occ Bool.bool_dec answers true)%nat, st').
Proof.
  revert st n. induction to_process as [|d rest IH]; intros st n; simpl.
  - f_equal. lia.
  - destruct dry_run.
    + apply IH.
    + destruct (archive_location st d file_uri) as [b st1].
      rewrite IH.
      destruct (toggle_answers archive_location false file_uri rest st1) as [bs st2].
      destruct b; simpl; f_equal; lia.
Qed.

Lemma no_true_answer (answers : list bool) :
  Nat.eqb (count_occ Bool.bool_dec answers true) 0 = negb (existsb (fun b => b) answers).
Proof.
  induction answers as [|b bs IH]; simpl; [reflexivity |].
  destruct b; simpl; [reflexivity | exact IH].
Qed.

Lemma archive_files_counts (dry_run : bool) (files : list string)
      (st : Catalogue) (n : nat) :
  archive_files dry_run files st n =
    let (k, st') := files_without_change archive_location dry_run files st in
    ((n + k)%nat, st').
Proof.
  revert st n. induction files as [|f rest IH]; intros st n; simpl.
  - f_equal. lia.
  - rewrite archive_datasets_counts.
    destruct (toggle_answers archive_location dry_run (_full_uri f)
                (get_datasets_for_location st (_full_uri f)) st) as [answers st1].
    rewrite IH.
    destruct (files_without_change archive_location dry_run rest st1) as [k st2].
    simpl. rewrite no_true_answer.
    destruct (existsb (fun b => b) answers); simpl; f_equal; lia.
Qed.

(** X1.  [file archive] exits with the number of input files for which
    no location was archived, and leaves the catalogue its calls of
    [archive_location] produced. *)
Lemma archive_cmd_exit_code (st : Catalogue) (dry_run : bool) (files : list string) :
  archive_cmd st dry_run files = files_without_change archive_location dry_run files st.
Proof.
  unfold FileCli.archive_cmd. rewrite archive_files_counts.
  destruct (files_without_change archive_location dry_run files st). reflexivity.
Qed.

(** X2.  [file restore] counts nothing for a file at which no dataset is
    found: its counting test sits inside the loop over the datasets. *)
Lemma restore_cmd_skips_files_without_datasets
      (st : Catalogue) (dry_run : bool) (files : list string) :
  (forall f, In f files -> get_datasets_for_location st (_full_uri f) = []) ->
  restore_cmd st dry_run files = (O, st).
Proof.
  unfold FileCli.restore_cmd. generalize O.
  induction files as [|f rest IH]; intros n Hnone; [reflexivity |].
  cbn [FileCli.restore_files]. rewrite (Hnone f) by (left; reflexivity).
  cbn [FileCli.restore_datasets]. apply IH. intros g Hg. apply Hnone. now right.
Qed.

End FileCliFacts.

Lemma restore_cmd_skips_files_without_datasets_witness :
  FileCli.run_restore FileCli.two_active_at_scene false
                      ["/g/data/missing.nc"; "/g/data/other.nc"]
  = (O, FileCli.two_active_at_scene).
Proof.
  apply (restore_cmd_skips_files_without_datasets
           FileCli.Store string FileCli.store_get_datasets_for_location
           FileCli.store_restore_location FileCli.store_full_uri).
  intros f [<-|[<-|[]]]; vm_compute; reflexivity.
Defined.

(** C9 at the inputs where [file restore] departs from it.  With no
    dataset at the file's uri, or with two datasets there and nothing to
    restore, one file is left without a change; [file archive] exits
    with 1 in both cases, [file restore] with 0 and with 2.  With two
    datasets of which only the second is restored, a change was made, yet
    [file restore] exits with 1. *)
Theorem restore_cmd_exit_code_miscounts :
  fst (FileCli.run_without_change FileCli.store_restore_location false
         ["/g/data/missing.nc"] []) = 1%nat
  /\ fst (FileCli.run_restore [] false ["/g/data/missing.nc"]) = 0%nat
  /\ fst (FileCli.run_archive [] false ["/g/data/missing.nc"]) = 1%nat
  /\ fst (FileCli.run_without_change FileCli.store_restore_location false
            ["/g/data/scene.nc"] FileCli.two_active_at_scene) = 1%nat
  /\ fst (FileCli.run_restore FileCli.two_active_at_scene false ["/g/data/scene.nc"]) = 2%nat
  /\ fst (FileCli.run_without_change FileCli.store_restore_location false
            ["/g/data/scene.nc"] FileCli.second_archived_at_scene) = 0%nat
  /\ fst (FileCli.run_restore FileCli.second_archived_at_scene false
            ["/g/data/scene.nc"]) = 1%nat.
Proof.
  split; [|split; [|split; [|split; [|split; [|split]]]]].
  all: vm_compute; reflexivity.
Qed.

(** ** The field compiler *)

Section FieldsFacts.

Import Fields.

(** The compiled expressions are those [test_field_expression_unchanged]
    pins, character for character. *)
Lemma time_field_sql :
  sql_expression (compile time_field) =
  "tstzrange(least(agdc.common_timestamp(agdc.dataset.metadata #>> '{extent, from_dt}'), agdc.common_timestamp(agdc.dataset.metadata #>> '{extent, center_dt}')), greatest(agdc.common_timestamp(agdc.dataset.metadata #>> '{extent, to_dt}'), agdc.common_timestamp(agdc.dataset.metadata #>> '{extent, center_dt}')), '[]')".
Proof. vm_compute. reflexivity. Qed.

Lemma lat_field_sql :
  sql_expression (compile lat_field) =
  "agdc.float8range(least(CAST(agdc.dataset.metadata #>> '{extent, coord, ur, lat}' AS DOUBLE PRECISION), CAST(agdc.dataset.metadata #>> '{extent, coord, lr, lat}' AS DOUBLE PRECISION), CAST(agdc.dataset.metadata #>> '{extent, coord, ul, lat}' AS DOUBLE PRECISION), CAST(agdc.dataset.metadata #>> '{extent, coord, ll, lat}' AS DOUBLE PRECISION)), greatest(CAST(agdc.dataset.metadata #>> '{extent, coord, ur, lat}' AS DOUBLE PRECISION), CAST(agdc.dataset.metadata #>> '{extent, coord, lr, lat}' AS DOUBLE PRECISION), CAST(agdc.dataset.metadata #>> '{extent, coord, ul, lat}' AS DOUBLE PRECISION), CAST(agdc.dataset.metadata #>> '{extent, coord, ll, lat}' AS DOUBLE PRECISION)), '[]')".
Proof. vm_compute. reflexivity. Qed.

Lemma platform_field_sql :
  sql_expression (compile platform_field) = "agdc.dataset.metadata #>> '{platform, code}'".
Proof. vm_compute. reflexivity. Qed.

Lemma orbit_field_sql :
  sql_expression (compile orbit_field) =
  "CAST(agdc.dataset.metadata #>> '{acquisition, platform_orbit}' AS INTEGER)".
Proof. vm_compute. reflexivity. Qed.

Lemma eval_scalar_of (doc : Json) (kind : ScalarKind) (offset : list string) :
  eval_scalar doc (scalar_of kind offset) = extract doc offset.
Proof. destruct kind; reflexivity. Qed.

Lemma eval_compiled_offsets (doc : Json) (kind : ScalarKind) (offs : list (list string)) :
  map (eval_scalar doc) (map (scalar_of kind) offs) = map (extract doc) offs.
Proof.
  rewrite map_map. apply map_ext. intros off. apply eval_scalar_of.
Qed.

Lemma null_min_swap (a b c : option Z) :
  null_min a (null_min b c) = null_min b (null_min a c).
Proof. destruct a, b, c; simpl; f_equal; lia. Qed.

Lemma null_max_swap (a b c : option Z) :
  null_max a (null_max b c) = null_max b (null_max a c).
Proof. destruct a, b, c; simpl; f_equal; lia. Qed.

Lemma sql_least_perm (l l' : list (option Z)) :
  Permutation l l' -> sql_least l = sql_least l'.
Proof.
  unfold sql_least. induction 1 as [|x l l' _ IH|x y l|l l' l'' _ IH1 _ IH2]; simpl.
  - reflexivity.
  - now rewrite IH.
  - apply null_min_swap.
  - congruence.
Qed.

Lemma sql_greatest_perm (l l' : list (option Z)) :
  Permutation l l' -> sql_greatest l = sql_greatest l'.
Proof.
  unfold sql_greatest. induction 1 as [|x l l' _ IH|x y l|l l' l'' _ IH1 _ IH2]; simpl.
  - reflexivity.
  - now rewrite IH.
  - apply null_max_swap.
  - congruence.
Qed.

Lemma sql_least_is_minimum (vs : list Z) :
  vs <> [] ->
  exists lo, sql_least (map Some vs) = Some lo /\ In lo vs /\
             forall v, In v vs -> lo <= v.
Proof.
  induction vs as [|x vs IH]; [congruence |]. intros _.
  destruct vs as [|y vs].
  - exists x. simpl. repeat split; auto. intros v [<-|[]]. lia.
  - destruct IH as (lo & Hlo & Hin & Hle); [discriminate |].
    change (sql_least (map Some (x :: y :: vs)))
      with (null_min (Some x) (sql_least (map Some (y :: vs)))).
    rewrite Hlo. simpl null_min. exists (Z.min x lo). split; [reflexivity |]. split.
    + destruct (Z.min_spec x lo) as [[_ ->]|[_ ->]]; [left; reflexivity | right; exact Hin].
    + intros v [<-|Hv]; [lia |]. specialize (Hle v Hv). lia.
Qed.

Lemma sql_greatest_is_maximum (vs : list Z) :
  vs <> [] ->
  exists hi, sql_greatest (map Some vs) = Some hi /\ In hi vs /\
             forall v, In v vs -> v <= hi.
Proof.
  induction vs as [|x vs IH]; [congruence |]. intros _.
  destruct vs as [|y vs].
  - exists x. simpl. repeat split; auto. intros v [<-|[]]. lia.
  - destruct IH as (hi & Hhi & Hin & Hle); [discriminate |].
    change (sql_greatest (map Some (x :: y :: vs)))
      with (null_max (Some x) (sql_greatest (map Some (y :: vs)))).
    rewrite Hhi. simpl null_max. exists (Z.max x hi). split; [reflexivity |]. split.
    + destruct (Z.max_spec x hi) as [[_ ->]|[_ ->]]; [right; exact Hin | left; reflexivity].
    + intros v [<-|Hv]; [lia |]. specialize (Hle v Hv). lia.
Qed.

Lemma eval_compile_range (doc : Json) (kind : RangeKind)
      (min_offset max_offset : list (list string)) :
  eval doc (compile (RangeField kind min_offset max_offset)) =
  make_range (sql_least (map (extract doc) min_offset))
             (sql_greatest (map (extract doc) max_offset)) "[]".
Proof. simpl. now rewrite !eval_compiled_offsets. Qed.

(** C1, as the compiler has it.  A range field compiles to the range from
    the least of the values at its min-offsets to the greatest of the
    values at its max-offsets, both ends included.  Reordering either
    list leaves the range as it is; and when both lists hold the same
    offsets, all of them present in the document, the range runs from the
    minimum to the maximum of all the values. *)
Theorem compile_range_least_greatest (doc : Json) (kind : RangeKind)
        (min_offset max_offset min_offset' max_offset' : list (list string)) :
  Permutation min_offset min_offset' ->
  Permutation max_offset max_offset' ->
  eval doc (compile (RangeField kind min_offset max_offset)) =
    make_range (sql_least (map (extract doc) min_offset))
               (sql_greatest (map (extract doc) max_offset)) "[]"
  /\ eval doc (compile (RangeField kind min_offset' max_offset')) =
     eval doc (compile (RangeField kind min_offset max_offset))
  /\ (Permutation min_offset max_offset ->
      forall vs, vs <> [] -> map (extract doc) min_offset = map Some vs ->
                 exists lo hi,
                   eval doc (compile (RangeField kind min_offset max_offset)) =
                     Some (VRange (Some lo) (Some hi) true true)
                   /\ In lo vs /\ In hi vs
                   /\ forall v, In v vs -> lo <= v <= hi).
Proof.
  intros Hmin Hmax. rewrite !eval_compile_range. split; [reflexivity |]. split.
  - rewrite (sql_least_perm _ _ (Permutation_map (extract doc) Hmin)).
    rewrite (sql_greatest_perm _ _ (Permutation_map (extract doc) Hmax)).
    reflexivity.
  - intros Hsame vs Hne Hvs.
    rewrite <- (sql_greatest_perm _ _ (Permutation_map (extract doc) Hsame)), Hvs.
    destruct (sql_least_is_minimum vs Hne) as (lo & -> & Hlo & Hlo_le).
    destruct (sql_greatest_is_maximum vs Hne) as (hi & -> & Hhi & Hhi_ge).
    exists lo, hi. unfold make_range.
    assert (Hord : lo <= hi) by (apply Hhi_ge; exact Hlo).
    destruct (Z.ltb_spec hi lo) as [Hlt|_]; [lia |].
    repeat split; auto. 
Qed.

(** The four corner latitudes of the telemetry dataset, declared in any
    order, give the range from the southernmost to the northernmost. *)
Lemma compile_range_least_greatest_witness :
  eval telemetry_doc (compile (RangeField KDoubleRange (rev lat_corners) lat_corners)) =
  eval telemetry_doc (compile lat_field)
  /\ eval telemetry_doc (compile lat_field) =
     Some (VRange (Some (-3137116)) (Some (-2923394)) true true).
Proof.
  split.
  - apply (compile_range_least_greatest telemetry_doc KDoubleRange
             lat_corners lat_corners (rev lat_corners) lat_corners).
    + apply Permutation_rev.
    + apply Permutation_refl.
  - vm_compute. reflexivity.
Defined.

(** C1, as stated, fails on the [time] field: its offsets are [from_dt],
    [center_dt] and [to_dt], and its range starts at the least of
    [from_dt] and [center_dt] only.  On a document whose [to_dt] comes
    first the range does not reach down to it. *)
Lemma time_field_range_not_over_all_offsets :
  ~ (exists lo hi,
        eval backwards_doc (compile time_field) =
          Some (VRange (Some lo) (Some hi) true true)
        /\ forall v, In (Some v) (map (extract backwards_doc) (offsets time_field)) ->
                     lo <= v <= hi).
Proof.
  intros (lo & hi & Heval & Hall).
  vm_compute in Heval. injection Heval as <- <-.
  assert (H0 : 1 <= 0 <= 1).
  { apply Hall. vm_compute. right. right. left. reflexivity. }
  lia.
Qed.

(** The two lists of a range field are not interchangeable: declaring the
    [time] offsets with [from_dt] and [to_dt] swapped changes the range of
    an ordinary document. *)
Lemma time_field_roles_matter :
  let doc := JObj [("extent", JObj [("from_dt", JNum 0); ("center_dt", JNum 1);
                                    ("to_dt", JNum 2)])] in
  eval doc (compile time_field) = Some (VRange (Some 0) (Some 2) true true)
  /\ eval doc (compile (RangeField KDatetimeRange
                                   [["extent"; "to_dt"]; ["extent"; "center_dt"]]
                                   [["extent"; "from_dt"]; ["extent"; "center_dt"]]))
     = Some (VRange (Some 1) (Some 1) true true).
Proof. split; vm_compute; reflexivity. Qed.

End FieldsFacts.

(** ** The registries *)

Section RegistryFacts.

Import Registry.

(** C2.  [add] is idempotent and never overwrites.  Once a definition
    has been added, adding it again succeeds and leaves the store as the
    first add left it; adding a definition that differs from the one
    stored under its name raises the validation error, and the store and
    the stored definition stay as they were. *)
Theorem add_idempotent_never_overwrites (st : Store) (def other : Definition_) :
  (forall st1, add def st = (Ok tt, st1) ->
               get_by_name st1 (def_name def) = Some def /\
               add def st1 = (Ok tt, st1)) /\
  (get_by_name st (def_name def) = None -> fst (add def st) = Ok tt) /\
  (get_by_name st (def_name def) = Some def -> add def st = (Ok tt, st)) /\
  (get_by_name st (def_name other) = Some def -> other <> def ->
   is_value_error (fst (add other st)) = true /\
   snd (add other st) = st /\
   get_by_name (snd (add other st)) (def_name other) = Some def).
Proof.
  unfold get_by_name, add, Store in *. split; [|split; [|split]].
  - intros st1. destruct (st !! def_name def) as [existing|] eqn:Hst.
    + destruct (decide (existing = def)) as [->|Hne]; [|discriminate].
      intros [= <-]. rewrite Hst. split; [reflexivity |].
      destruct (decide (def = def)); [reflexivity | contradiction].
    + intros [= <-]. rewrite lookup_insert_eq. split; [reflexivity |].
      destruct (decide (def = def)); [reflexivity | contradiction].
  - intros ->. reflexivity.
  - intros ->. destruct (decide (def = def)); [reflexivity | contradiction].
  - intros Hst Hne. rewrite Hst.
    destruct (decide (def = other)) as [->|_]; [contradiction |].
    simpl. auto.
Qed.

Lemma add_idempotent_never_overwrites_witness :
  is_value_error (fst (add ls5_telem_ga_label (<["ls5_telem_test" := ls5_telem]> ∅))) = true
  /\ snd (add ls5_telem_ga_label (<["ls5_telem_test" := ls5_telem]> ∅))
     = <["ls5_telem_test" := ls5_telem]> ∅
  /\ get_by_name (snd (add ls5_telem_ga_label (<["ls5_telem_test" := ls5_telem]> ∅)))
                 "ls5_telem_test" = Some ls5_telem.
Proof.
  apply (add_idempotent_never_overwrites (<["ls5_telem_test" := ls5_telem]> ∅)
                                         ls5_telem ls5_telem_ga_label).
  - reflexivity.
  - intros H. apply (f_equal (fun d => def_match d !! ["ga_label"])) in H.
    vm_compute in H. discriminate H.
Defined.

Lemma redefined_field_is_reported (stored incoming : Definition_) (f : string)
      (a b : SearchField) :
  def_fields stored !! f = Some a -> def_fields incoming !! f = Some b -> a <> b ->
  In (FieldChanged f) (unsafe_changes stored incoming).
Proof.
  intros Ha Hb Hne. unfold unsafe_changes. apply filter_In. split; [|reflexivity].
  unfold doc_changes, field_changes.
  apply in_or_app. right. apply in_or_app. left. apply in_or_app. left.
  apply list_elem_of_In, list_elem_of_omap. exists (f, a). split.
  - now apply elem_of_map_to_list.
  - simpl. rewrite Hb. destruct (decide (a = b)); [contradiction | reflexivity].
Qed.

Lemma tightened_match_is_reported (stored incoming : Definition_)
      (p : list string) (v : string) :
  def_match incoming !! p = Some v -> def_match stored !! p <> Some v ->
  In (MatchTightened p) (unsafe_changes stored incoming).
Proof.
  intros Hin Hst. unfold unsafe_changes. apply filter_In. split; [|reflexivity].
  unfold doc_changes, match_changes.
  apply in_or_app. right. apply in_or_app. right. apply in_or_app. left.
  apply list_elem_of_In, list_elem_of_omap. exists (p, v). split.
  - now apply elem_of_map_to_list.
  - simpl. destruct (def_match stored !! p) as [w|]; [|reflexivity].
    destruct (decide (v = w)) as [->|_]; [contradiction | reflexivity].
Qed.

(** C3.  An update that redefines an existing field (its type or its
    offsets) or tightens the match rules (a constraint is added or held
    to another literal) is refused without [allow_unsafe]: the validation error names the unsafe
    changes and the store is as before.  With [allow_unsafe] the same
    update succeeds and the definition read back is the incoming one. *)
Theorem update_refuses_unsafe_unless_allowed (st : Store) (stored incoming : Definition_) :
  get_by_name st (def_name incoming) = Some stored ->
  redefines_field stored incoming \/ tightens_match stored incoming ->
  unsafe_changes stored incoming <> []
  /\ update incoming false st =
       (Raise (ValueError ("Unsafe changes at "
                             ++ join ", " (map change_name (unsafe_changes stored incoming)))),
        st)
  /\ get_by_name (snd (update incoming false st)) (def_name incoming) = Some stored
  /\ fst (update incoming true st) = Ok tt
  /\ get_by_name (snd (update incoming true st)) (def_name incoming) = Some incoming.
Proof.
  unfold get_by_name, Store in *. intros Hst Hunsafe.
  assert (Hbad : unsafe_changes stored incoming <> []).
  { destruct Hunsafe as [(f & a & b & Ha & Hb & Hne)|(p & v & Hin & Hnone)].
    - assert (Hab : a <> b) by congruence.
      pose proof (redefined_field_is_reported _ _ _ _ _ Ha Hb Hab) as H.
      intros E. rewrite E in H. exact H.
    - pose proof (tightened_match_is_reported _ _ _ _ Hin Hnone) as H.
      intros E. rewrite E in H. exact H. }
  unfold update, Store. rewrite Hst.
  destruct (unsafe_changes stored incoming) as [|c bad] eqn:E; [congruence |].
  split; [discriminate |]. split; [reflexivity |]. split; [exact Hst |].
  split; [reflexivity |]. cbn [snd]. apply lookup_insert_eq.
Qed.

(** Turning the [time] field of [eo] into a numeric range, as
    [test_update_metadata_type] does. *)
Lemma update_refuses_unsafe_unless_allowed_witness :
  is_value_error (fst (update eo_type_numeric_time false (<["eo" := eo_type]> ∅))) = true
  /\ get_by_name (snd (update eo_type_numeric_time true (<["eo" := eo_type]> ∅))) "eo"
     = Some eo_type_numeric_time.
Proof.
  assert (Hredef : redefines_field eo_type eo_type_numeric_time).
  { exists "time", (mkSearchField Fields.time_field true).
    eexists. split; [reflexivity |]. split; [reflexivity |].
    simpl. discriminate. }
  assert (Hst : get_by_name (<["eo" := eo_type]> ∅) (def_name eo_type_numeric_time)
                = Some eo_type) by apply lookup_insert_eq.
  destruct (update_refuses_unsafe_unless_allowed
              (<["eo" := eo_type]> ∅) eo_type eo_type_numeric_time
              Hst (or_introl Hredef))
    as (_ & Hfail & _ & _ & Hread).
  split; [now rewrite Hfail | exact Hread].
Defined.

(** Adding the [ga_label] match rule to the telemetry product, as
    [test_update_dataset_type] does. *)
Lemma update_refuses_tightened_match :
  is_value_error (fst (update ls5_telem_ga_label false
                              (<["ls5_telem_test" := ls5_telem]> ∅))) = true
  /\ get_by_name (snd (update ls5_telem_ga_label false
                              (<["ls5_telem_test" := ls5_telem]> ∅))) "ls5_telem_test"
     = Some ls5_telem
  /\ get_by_name (snd (update ls5_telem_ga_label true
                              (<["ls5_telem_test" := ls5_telem]> ∅))) "ls5_telem_test"
     = Some ls5_telem_ga_label.
Proof.
  assert (Htight : tightens_match ls5_telem ls5_telem_ga_label).
  { exists ["ga_label"], "something". split; [reflexivity | discriminate]. }
  assert (Hst : get_by_name (<["ls5_telem_test" := ls5_telem]> ∅)
                            (def_name ls5_telem_ga_label)
                = Some ls5_telem) by apply lookup_insert_eq.
  destruct (update_refuses_unsafe_unless_allowed
              (<["ls5_telem_test" := ls5_telem]> ∅) ls5_telem ls5_telem_ga_label
              Hst (or_intror Htight))
    as (_ & Hfail & Hkept & _ & Hread).
  split; [now rewrite Hfail | split; [exact Hkept | exact Hread]].
Qed.

End RegistryFacts.

(** ** [search_returning] *)

Section SearchFacts.

Import Search.

Lemma uri_requested (fields : list string) :
  In "uri" fields -> existsb (String.eqb "uri") fields = true.
Proof.
  intros H. apply existsb_exists. exists "uri". split; [exact H | apply String.eqb_refl].
Qed.

Lemma rows_of_id_app (i : string) (a b : list (list (option string))) :
  rows_of_id i (a ++ b)%list = (rows_of_id i a ++ rows_of_id i b)%list.
Proof. unfold rows_of_id. apply List.filter_app. Qed.

Lemma project_id_first (fields : list string) (d : Dataset) (u : option string) :
  project ("id" :: fields) d u = Some (ds_id d) :: project fields d u.
Proof. reflexivity. Qed.

Lemma rows_of_id_one (i : string) (fields : list string) (x : Dataset) :
  rows_of_id i (map (fun u => project ("id" :: fields) x (Some u)) (ds_locations x))
  = if String.eqb (ds_id x) i
    then map (fun u => project ("id" :: fields) x (Some u)) (ds_locations x)
    else [].
Proof.
  unfold rows_of_id.
  induction (ds_locations x) as [|u us IH].
  - simpl. now destruct (String.eqb (ds_id x) i).
  - rewrite !map_cons, project_id_first. cbn [List.filter]. rewrite IH.
    now destruct (String.eqb (ds_id x) i).
Qed.

Lemma rows_of_id_none (i : string) (fields : list string) (l : list Dataset) :
  ~ In i (map ds_id l) ->
  rows_of_id i (flat_map (fun d => map (fun u => project ("id" :: fields) d (Some u))
                                       (ds_locations d)) l) = [].
Proof.
  induction l as [|x l IH]; intros Hne; [reflexivity |].
  cbn [flat_map]. cbn [map In] in Hne.
  rewrite rows_of_id_app, rows_of_id_one, IH by tauto.
  destruct (String.eqb_spec (ds_id x) i); [tauto | reflexivity].
Qed.

Lemma rows_of_id_located (d : Dataset) (fields : list string) (l : list Dataset) :
  List.NoDup (map ds_id l) -> In d l ->
  rows_of_id (ds_id d)
             (flat_map (fun d => map (fun u => project ("id" :: fields) d (Some u))
                                     (ds_locations d)) l)
  = map (fun u => project ("id" :: fields) d (Some u)) (ds_locations d).
Proof.
  induction l as [|x l IH]; intros Hnodup Hd; [destruct Hd |].
  cbn [flat_map]. cbn [map] in Hnodup.
  apply NoDup_cons_iff in Hnodup. destruct Hnodup as [Hfresh Hnodup].
  rewrite rows_of_id_app, rows_of_id_one. destruct Hd as [->|Hd].
  - rewrite String.eqb_refl, rows_of_id_none by exact Hfresh. apply app_nil_r.
  - destruct (String.eqb_spec (ds_id x) (ds_id d)) as [E|_].
    + exfalso. apply Hfresh. rewrite E. now apply in_map.
    + now apply IH.
Qed.

Lemma search_keeps_ids_distinct (q : Query) (st : list Dataset) :
  List.NoDup (map ds_id st) -> List.NoDup (map ds_id (search q st)).
Proof.
  unfold search. induction st as [|x st IH]; simpl; intros H; [constructor |].
  apply NoDup_cons_iff in H. destruct H as [Hfresh H].
  destruct (matches q x); simpl; [|auto].
  constructor; [|auto].
  intros Hin. apply Hfresh. apply in_map_iff in Hin. destruct Hin as (y & <- & Hy).
  apply filter_In in Hy. apply in_map. tauto.
Qed.

Lemma search_In (q : Query) (st : list Dataset) (d : Dataset) :
  In d (search q st) <-> In d st /\ matches q d = true.
Proof. unfold search. apply filter_In. Qed.

(** C7.  With [uri] among the requested fields, the rows of
    [search_returning] are the projections of the pairs of a matching
    dataset and one of its locations, one row for each pair: there are as
    many rows as the matching datasets have locations, and the rows that
    carry a dataset's id are those of its locations, in order -- two for
    a dataset with two locations, none for a dataset with none. *)
Theorem search_returning_one_row_per_location
        (fields : list string) (q : Query) (st : list Dataset) :
  In "uri" fields ->
  length (search_returning fields q st) =
    list_sum (map (fun d => length (ds_locations d)) (search q st))
  /\ (forall row,
        In row (search_returning fields q st) <->
        exists d u, In d st /\ matches q d = true /\ In u (ds_locations d) /\
                    row = project fields d (Some u))
  /\ (forall d,
        List.NoDup (map ds_id st) -> In d st -> matches q d = true ->
        rows_of_id (ds_id d) (search_returning ["id"; "uri"] q st) =
        map (fun u => [Some (ds_id d); Some u]) (ds_locations d)).
Proof.
  intros Huri. unfold search_returning at 1 2. rewrite (uri_requested _ Huri).
  split; [|split].
  - induction (search q st) as [|x l IH]; simpl; [reflexivity |].
    now rewrite length_app, length_map, IH.
  - intros row. rewrite in_flat_map. split.
    + intros (d & Hd & Hrow). apply search_In in Hd. destruct Hd as [Hd Hm].
      apply in_map_iff in Hrow. destruct Hrow as (u & <- & Hu).
      exists d, u. auto.
    + intros (d & u & Hd & Hm & Hu & ->). exists d. split.
      * apply search_In. auto.
      * apply in_map_iff. exists u. auto.
  - intros d Hnodup Hd Hm.
    change (search_returning ["id"; "uri"] q st)
      with (flat_map (fun d => map (fun u => project ["id"; "uri"] d (Some u))
                                   (ds_locations d)) (search q st)).
    rewrite (rows_of_id_located d ["uri"] (search q st)).
    + apply map_ext. intros u. reflexivity.
    + now apply search_keeps_ids_distinct.
    + apply search_In. auto.
Qed.

(** The store of [test_search_returning_rows]: two rows for the dataset
    with two locations, one for the other. *)
Lemma search_returning_one_row_per_location_witness :
  length (search_returning ["id"; "uri"] telemetry_query telemetry_store_located) = 3%nat
  /\ length (search_returning ["id"; "uri"] telemetry_query telemetry_store) = 0%nat.
Proof.
  destruct (search_returning_one_row_per_location
              ["id"; "uri"] telemetry_query telemetry_store_located) as (Hlen & _).
  { simpl. auto. }
  destruct (search_returning_one_row_per_location
              ["id"; "uri"] telemetry_query telemetry_store) as (Hlen0 & _).
  { simpl. auto. }
  split; [rewrite Hlen | rewrite Hlen0]; vm_compute; reflexivity.
Defined.

Lemma search_returning_test_rows :
  search_returning ["id"; "uri"] telemetry_query telemetry_store_located =
  [[Some "dataset-1"; Some "file:///tmp/test2"];
   [Some "dataset-1"; Some "file:///tmp/test1"];
   [Some "dataset-2"; Some "mdss://c10/tmp/something"]].
Proof. vm_compute. reflexivity. Qed.

End SearchFacts.

(** ** The driver registry: keys, duplicates, the default driver *)

Section RegistryFacts2.

Import Manager ManagerDispatch.

Lemma pydict_get_In {V : Type} (d : PyDict.t V) (k : string) (v : V) :
  PyDict.get d k = Some v -> In (k, v) d.
Proof.
  induction d as [|[k' v'] d IH]; simpl; [discriminate |].
  destruct (String.eqb_spec k' k) as [->|_].
  - intros [= ->]. now left.
  - intros H. right. now apply IH.
Qed.

Lemma pydict_set_In {V : Type} (d : PyDict.t V) (k k0 : string) (v v0 : V) :
  In (k0, v0) (PyDict.set d k v) -> (k0, v0) = (k, v) \/ In (k0, v0) d.
Proof.
  induction d as [|[k' v'] d IH]; simpl.
  - intros [H|[]]. now left.
  - destruct (String.eqb_spec k' k) as [->|_]; simpl.
    + intros [H|H]; auto.
    + intros [H|H]; [auto | destruct (IH H); auto].
Qed.

Lemma pydict_set_keys {V : Type} (d : PyDict.t V) (k : string) (v : V) :
  PyDict.keys (PyDict.set d k v) =
  if PyDict.mem d k then PyDict.keys d else (PyDict.keys d ++ [k])%list.
Proof.
  unfold PyDict.mem, PyDict.keys. induction d as [|[k' v'] d IH]; simpl; [reflexivity |].
  destruct (String.eqb k' k); simpl; [reflexivity |].
  rewrite IH. now destruct (PyDict.get d k).
Qed.

Lemma pydict_set_nodup {V : Type} (d : PyDict.t V) (k : string) (v : V) :
  List.NoDup (PyDict.keys d) -> List.NoDup (PyDict.keys (PyDict.set d k v)).
Proof.
  intros H. rewrite pydict_set_keys. unfold PyDict.mem.
  destruct (PyDict.get d k) eqn:E; [exact H |].
  apply pydict_get_none in E.
  apply List.NoDup_app.
  - exact H.
  - repeat constructor. intros [].
  - intros x Hx [<-|[]]. exact (E Hx).
Qed.

Lemma load_plugin_registry_ok (db : Conn) (ds : PyDict.t Driver) (p : Plugin) :
  registry_ok ds -> registry_ok (load_plugin db ds p).
Proof.
  intros [Hnodup Hnames]. rewrite load_plugin_passes.
  destruct (passes db p); [|split; assumption].
  split; [now apply pydict_set_nodup |].
  intros k d H. apply pydict_set_In in H. destruct H as [[= -> ->]|H]; auto.
Qed.

Lemma discovery_registry_ok (db : Conn) (plugins : list Plugin) (ds : PyDict.t Driver) :
  registry_ok ds -> registry_ok (fold_left (load_plugin db) plugins ds).
Proof.
  revert ds. induction plugins as [|p ps IH]; intros ds H; simpl; [exact H |].
  apply IH. now apply load_plugin_registry_ok.
Qed.

Lemma empty_registry_ok : registry_ok [].
Proof. split; [constructor | intros k d []]. Qed.

(** A name in the discovered registry is that of a plugin that passes. *)
Lemma discovery_get (db : Conn) (plugins : list Plugin) (k : string) (d : Driver) :
  PyDict.get (fold_left (load_plugin db) plugins []) k = Some d ->
  name d = k /\ exists p, In p plugins /\ passes db p = true /\
                          d = construct p (spec_name p) db.
Proof.
  intros H. split.
  - symmetry. apply (proj2 (discovery_registry_ok db plugins [] empty_registry_ok)).
    now apply pydict_get_In.
  - apply pydict_get_values, discovery_values in H. destruct H as [[]|H]. exact H.
Qed.

Lemma discovery_get_other (db : Conn) (plugins : list Plugin) (ds : PyDict.t Driver)
      (k : string) :
  (forall q, In q plugins -> passes db q = true ->
             name (construct q (spec_name q) db) <> k) ->
  PyDict.get (fold_left (load_plugin db) plugins ds) k = PyDict.get ds k.
Proof.
  revert ds. induction plugins as [|q qs IH]; intros ds Hne; simpl; [reflexivity |].
  rewrite IH by (intros r Hr; apply Hne; now right).
  rewrite load_plugin_passes. destruct (passes db q) eqn:E; [|reflexivity].
  apply pydict_set_get_other. apply Hne; [now left | exact E].
Qed.

(** X3.  After [reload_drivers] the registry is keyed by driver name: no
    key occurs twice and every driver sits under its own [name]. *)
Theorem reload_drivers_registry_keyed_by_name
        (plugins : list Plugin) (m : DriverManager) (db : Conn) :
  List.NoDup (PyDict.keys (drivers (fst (fst (reload_drivers plugins m db)))))
  /\ forall k d, In (k, d) (drivers (fst (fst (reload_drivers plugins m db)))) ->
                 k = name d /\ PyDict.get (drivers (fst (fst (reload_drivers plugins m db)))) k
                               = Some d.
Proof.
  rewrite reload_drivers_outcome. cbn [fst drivers].
  destruct (discovery_registry_ok db plugins [] empty_registry_ok) as [Hnodup Hnames].
  split; [exact Hnodup |]. intros k d Hin. split; [now apply Hnames |].
  revert Hnodup Hin. generalize (fold_left (load_plugin db) plugins []).
  intros ds. induction ds as [|[k' d'] ds IH]; simpl; intros Hnodup Hin; [destruct Hin |].
  apply NoDup_cons_iff in Hnodup. destruct Hnodup as [Hfresh Hnodup].
  destruct Hin as [[= -> ->]|Hin].
  - now rewrite String.eqb_refl.
  - destruct (String.eqb_spec k' k) as [->|_]; [|now apply IH].
    exfalso. apply Hfresh. change k with (fst (k, d)). now apply in_map.
Qed.

(** X4.  Of several plugins that register under one name the last one
    that passes wins: the registry holds its driver under that name. *)
Theorem reload_drivers_last_plugin_wins
        (before after : list Plugin) (p : Plugin) (m : DriverManager) (db : Conn) :
  passes db p = true ->
  (forall q, In q after -> passes db q = true ->
             name (construct q (spec_name q) db) <> name (construct p (spec_name p) db)) ->
  PyDict.get (drivers (fst (fst (reload_drivers (before ++ p :: after) m db))))
             (name (construct p (spec_name p) db))
  = Some (construct p (spec_name p) db).
Proof.
  intros Hp Hafter. rewrite reload_drivers_outcome. cbn [fst drivers].
  rewrite fold_left_app. cbn [fold_left].
  rewrite discovery_get_other by exact Hafter.
  rewrite load_plugin_passes, Hp. apply pydict_set_get_same.
Qed.

Lemma reload_drivers_last_plugin_wins_witness :
  PyDict.get (drivers (fst (fst (reload_drivers
                                   [netcdf_plugin; netcdf_override_plugin; s3_plugin]
                                   (mkManager 1%nat None []) 1%nat))))
             "NetCDF CF"
  = Some (mkDriver "NetCDF CF" "netcdf" 1%nat true).
Proof.
  apply (reload_drivers_last_plugin_wins [netcdf_plugin] [s3_plugin]
                                         netcdf_override_plugin).
  - reflexivity.
  - intros q [<-|[]] _. vm_compute. discriminate.
Defined.

(** X5.  A manager that [__init__] returns has the driver registered as
    [NetCDF CF] for its current driver: that driver carries this name and
    passed its requirements probe, the generic index is on the connection
    given, and writes go to it whatever the dataset. *)
Theorem init_makes_default_driver_current
        (plugins : list Plugin) (db : Conn) (m : DriverManager) :
  init plugins db = Ok m ->
  exists d,
    driver m = Some d /\
    PyDict.get (drivers m) _DEFAULT_DRIVER = Some d /\
    name d = _DEFAULT_DRIVER /\
    requirements_satisfied d = true /\
    index m = db /\
    registry_ok (drivers m) /\
    current_registered m /\
    (forall (A : Type) (op : Driver -> A),
        write_dataset_to_storage m op = Some (op d) /\
        index_datasets m op = Some (op d)).
Proof.
  unfold init. rewrite reload_drivers_outcome.
  set (ds := fold_left (load_plugin db) plugins []).
  destruct ds as [|kd ds'] eqn:Eds; [discriminate |].
  unfold set_current_driver. cbn [drivers index].
  destruct (PyDict.get (kd :: ds') _DEFAULT_DRIVER) as [d|] eqn:Eget; [|discriminate].
  intros [= <-]. exists d. cbn [driver drivers index].
  rewrite <- Eds in *. subst ds.
  destruct (discovery_get db plugins _ d Eget) as (Hname & p & _ & Hp & ->).
  split; [reflexivity |]. split; [exact Eget |]. split; [exact Hname |].
  split.
  { unfold passes in Hp. apply andb_prop in Hp. tauto. }
  split; [reflexivity |].
  split; [apply discovery_registry_ok, empty_registry_ok |].
  split.
  { intros d' [= <-]. cbn [drivers]. now rewrite Hname. }
  intros A op. split; reflexivity.
Qed.

Lemma init_makes_default_driver_current_witness :
  exists d,
    driver (mkManager 1%nat (Some (mkDriver "NetCDF CF" "file" 1%nat true))
                      [("NetCDF CF", mkDriver "NetCDF CF" "file" 1%nat true);
                       ("s3", mkDriver "s3" "s3" 1%nat true)]) = Some d /\
    name d = _DEFAULT_DRIVER.
Proof.
  destruct (init_makes_default_driver_current
              [broken_import_plugin; netcdf_plugin; s3_plugin] 1%nat
              (mkManager 1%nat (Some (mkDriver "NetCDF CF" "file" 1%nat true))
                         [("NetCDF CF", mkDriver "NetCDF CF" "file" 1%nat true);
                          ("s3", mkDriver "s3" "s3" 1%nat true)]))
    as (d & Hd & _ & Hname & _).
  - vm_compute. reflexivity.
  - exists d. split; assumption.
Defined.



End RegistryFacts2.

Section ManagerFacts2.

Import Manager ManagerDispatch.

Lemma first_with_scheme_single (scheme : string) (ds : list Driver) (d : Driver) :
  In d ds -> uri_scheme d = scheme ->
  (forall d', In d' ds -> uri_scheme d' = scheme -> d' = d) ->
  first_with_scheme scheme ds = Some d.
Proof.
  intros Hin Hd Honly.
  destruct (first_with_scheme scheme ds) as [d0|] eqn:E.
  - apply first_with_scheme_some in E. destruct E as [Hin0 Hd0].
    f_equal. now apply Honly.
  - exfalso. rewrite first_with_scheme_none in E. exact (E d Hin Hd).
Qed.

(** X7.  When exactly one registered driver claims the scheme of the
    first uri, [get_driver_by_scheme] returns that driver, in whatever
    order the registry is gone through. *)
Theorem get_driver_by_scheme_single_claimant
        (m : DriverManager) (uris : option (list string)) (d : Driver)
        (reordered : PyDict.t Driver) :
  In d (PyDict.values (drivers m)) ->
  uri_scheme d = scheme_of uris ->
  (forall d', In d' (PyDict.values (drivers m)) ->
              uri_scheme d' = scheme_of uris -> d' = d) ->
  Permutation (drivers m) reordered ->
  get_driver_by_scheme m uris = Ok d
  /\ get_driver_by_scheme (mkManager (index m) (driver m) reordered) uris = Ok d.
Proof.
  intros Hin Hd Honly Hperm. unfold get_driver_by_scheme. cbn [drivers].
  assert (Hvalues : Permutation (PyDict.values (drivers m)) (PyDict.values reordered))
    by (unfold PyDict.values; now apply Permutation_map).
  rewrite (first_with_scheme_single _ _ d Hin Hd Honly).
  rewrite (first_with_scheme_single _ (PyDict.values reordered) d).
  - split; reflexivity.
  - now apply (Permutation_in _ Hvalues).
  - exact Hd.
  - intros d' Hd'. apply Honly. apply (Permutation_in _ (Permutation_sym Hvalues)).
    exact Hd'.
Qed.

Lemma get_driver_by_scheme_single_claimant_witness :
  get_driver_by_scheme two_scheme_manager (Some ["s3://bucket/key"])
  = Ok (mkDriver "s3" "s3" 1%nat true)
  /\ get_driver_by_scheme
       (mkManager 1%nat None
                  [("s3", mkDriver "s3" "s3" 1%nat true);
                   ("NetCDF CF", mkDriver "NetCDF CF" "file" 1%nat true)])
       (Some ["s3://bucket/key"])
     = Ok (mkDriver "s3" "s3" 1%nat true).
Proof.
  apply (get_driver_by_scheme_single_claimant
           two_scheme_manager (Some ["s3://bucket/key"]) (mkDriver "s3" "s3" 1%nat true)).
  - simpl. auto.
  - reflexivity.
  - intros d' [<-|[<-|[]]] Hs; [vm_compute in Hs; discriminate Hs | reflexivity].
  - apply perm_swap.
Defined.

(** X8.  When every plugin builds its index on the connection it is
    handed, a manager that [__init__] returns holds one connection:
    [close] closes it, once, and nothing else; a later [reload_drivers] on
    the same connection closes nothing. *)
Theorem init_shares_one_connection
        (plugins : list Plugin) (db : Conn) (m : DriverManager) :
  (forall p, In p plugins -> index_db (construct p (spec_name p) db) = db) ->
  init plugins db = Ok m ->
  close m = [db]
  /\ (forall c, In c (connections m) -> c = db)
  /\ snd (fst (reload_drivers plugins m db)) = [].
Proof.
  intros Hdb Hinit.
  assert (Hm : index m = db /\
               forall d, In d (PyDict.values (drivers m)) -> index_db d = db).
  { revert Hinit. unfold init. rewrite reload_drivers_outcome.
    destruct (fold_left (load_plugin db) plugins []) as [|kd ds'] eqn:Eds; [discriminate |].
    unfold set_current_driver. cbn [drivers index].
    destruct (PyDict.get (kd :: ds') _DEFAULT_DRIVER) as [d0|]; [|discriminate].
    intros [= <-]. cbn [index drivers]. split; [reflexivity |].
    intros d Hd. rewrite <- Eds in Hd. apply discovery_values in Hd.
    destruct Hd as [[]|(p & Hp & _ & ->)]. now apply Hdb. }
  destruct Hm as [Hindex Hall].
  assert (Hnone : close_drivers m = []).
  { unfold close_drivers. rewrite Hindex.
    induction (PyDict.values (drivers m)) as [|d ds IH]; [reflexivity |].
    cbn [List.filter]. rewrite (Hall d) by now left.
    rewrite Nat.eqb_refl. cbn [negb]. apply IH. intros d' Hd'. apply Hall. now right. }
  split; [|split].
  - unfold close. now rewrite Hnone, Hindex.
  - unfold connections. intros c [<-|Hc]; [exact Hindex |].
    apply in_map_iff in Hc. destruct Hc as (d & <- & Hd). now apply Hall.
  - rewrite reload_drivers_outcome. exact Hnone.
Qed.

Lemma init_shares_one_connection_witness :
  close (mkManager 7%nat (Some (mkDriver "NetCDF CF" "file" 7%nat true))
                   [("NetCDF CF", mkDriver "NetCDF CF" "file" 7%nat true);
                    ("s3", mkDriver "s3" "s3" 7%nat true)]) = [7%nat].
Proof.
  apply (init_shares_one_connection [netcdf_plugin; s3_plugin] 7%nat).
  - intros p [<-|[<-|[]]]; reflexivity.
  - vm_compute. reflexivity.
Defined.

(** X9.  [reload_drivers] replaces the registry and leaves the current
    driver alone: when no plugin that passes registers under the current
    driver's name, the manager keeps a current driver that is no longer
    registered. *)
Theorem reload_drivers_keeps_stale_current_driver
        (plugins : list Plugin) (m : DriverManager) (db : Conn) (d : Driver) :
  driver m = Some d ->
  (forall p, In p plugins -> passes db p = true ->
             name (construct p (spec_name p) db) <> name d) ->
  driver (fst (fst (reload_drivers plugins m db))) = Some d
  /\ PyDict.get (drivers (fst (fst (reload_drivers plugins m db)))) (name d) = None
  /\ ~ current_registered (fst (fst (reload_drivers plugins m db))).
Proof.
  intros Hd Hnone. rewrite reload_drivers_outcome. cbn [fst driver drivers].
  assert (Hget : PyDict.get (fold_left (load_plugin db) plugins []) (name d) = None)
    by (rewrite discovery_get_other by exact Hnone; reflexivity).
  split; [exact Hd |]. split; [exact Hget |].
  intros Hreg. specialize (Hreg d Hd). cbn [drivers] in Hreg. congruence.
Qed.

Lemma reload_drivers_keeps_stale_current_driver_witness :
  driver (fst (fst (reload_drivers [s3_plugin] manager_on_netcdf 1%nat)))
  = Some (mkDriver "NetCDF CF" "file" 1%nat true)
  /\ PyDict.get (drivers (fst (fst (reload_drivers [s3_plugin] manager_on_netcdf 1%nat))))
                "NetCDF CF" = None.
Proof.
  destruct (reload_drivers_keeps_stale_current_driver
              [s3_plugin] manager_on_netcdf 1%nat
              (mkDriver "NetCDF CF" "file" 1%nat true)) as (H1 & H2 & _).
  - reflexivity.
  - intros p [<-|[]] _. vm_compute. discriminate.
  - split; assumption.
Defined.

(** X10.  On a registry keyed by driver name, [set_current_driver] keeps
    the current driver registered under its own name, whether the call
    succeeds or raises, and never touches the registry or the generic
    index. *)
Theorem set_current_driver_keeps_current_registered
        (m : DriverManager) (driver_name : option string) :
  registry_ok (drivers m) ->
  current_registered m ->
  current_registered (fst (set_current_driver m driver_name))
  /\ drivers (fst (set_current_driver m driver_name)) = drivers m
  /\ index (fst (set_current_driver m driver_name)) = index m
  /\ (snd (set_current_driver m driver_name) = Ok tt ->
      exists d, driver (fst (set_current_driver m driver_name)) = Some d
                /\ Some (name d) = driver_name).
Proof.
  intros [_ Hnames] Hcur. unfold set_current_driver.
  destruct driver_name as [n|]; [|cbn [fst snd]; intuition discriminate].
  destruct (PyDict.get (drivers m) n) as [d|] eqn:E; cbn [fst snd];
    [|intuition discriminate].
  assert (Hn : n = name d) by (apply Hnames; now apply pydict_get_In).
  split; [|split; [reflexivity | split; [reflexivity |]]].
  - intros d' [= <-]. cbn [drivers]. now rewrite <- Hn.
  - intros _. exists d. split; [reflexivity | now rewrite Hn].
Qed.

Lemma set_current_driver_keeps_current_registered_witness :
  current_registered (fst (set_current_driver two_scheme_manager (Some "s3")))
  /\ current_registered (fst (set_current_driver two_scheme_manager (Some "mdss"))).
Proof.
  assert (Hok : registry_ok (drivers two_scheme_manager)).
  { split.
    - vm_compute. repeat constructor; simpl; intuition discriminate.
    - intros k d [[= <- <-]|[[= <- <-]|[]]]; reflexivity. }
  assert (Hcur : current_registered two_scheme_manager)
    by (intros d Hd; discriminate Hd).
  split.
  - apply (set_current_driver_keeps_current_registered
             two_scheme_manager (Some "s3") Hok Hcur).
  - apply (set_current_driver_keeps_current_registered
             two_scheme_manager (Some "mdss") Hok Hcur).
Defined.

End ManagerFacts2.

(** ** Output of dataset infos *)

Section UiOutputFacts.

Import UiCommon UiOutput.

Lemma build_dataset_info_head (index : Index) (dataset : Dataset)
      (show_sources show_derived : bool) (depth max_depth : Z) :
  info_id (build_dataset_info index dataset show_sources show_derived depth max_depth)
    = id dataset
  /\ info_product (build_dataset_info index dataset show_sources show_derived depth max_depth)
    = type_name dataset
  /\ info_status (build_dataset_info index dataset show_sources show_derived depth max_depth)
    = (if is_archived dataset then "archived" else "active")
  /\ info_locations (build_dataset_info index dataset show_sources show_derived depth max_depth)
    = uris dataset.
Proof.
  simp build_dataset_info.
  destruct (Z_lt_dec depth max_depth); simp build_dataset_info; repeat split.
Qed.

(** X11.  The csv output has a header and one row per dataset, holding
    the dataset's id, its status, its product and its first location
    (nothing when it has none); it is the same whatever [show_sources],
    [show_derived] and [max_depth] are. *)
Theorem write_csv_rows (index : Index) (datasets : list Dataset)
        (show_sources show_derived : bool) (max_depth : Z) :
  _write_csv (write_datasets index datasets show_sources show_derived max_depth) =
  [Some "id"; Some "status"; Some "product"; Some "location"]
    :: map (fun d => [Some (id d);
                      Some (if is_archived d then "archived" else "active");
                      Some (type_name d);
                      match uris d with [] => None | first :: _ => Some first end])
           datasets.
Proof.
  unfold _write_csv, write_datasets. f_equal.
  rewrite map_map. apply map_ext. intros d.
  destruct (build_dataset_info_head index d show_sources show_derived 1 max_depth)
    as (Hid & Hproduct & Hstatus & Hlocations).
  cbn [map csv_fieldnames]. unfold csv_cell, add_first_location. cbn [String.eqb Ascii.eqb Bool.eqb].
  now rewrite Hid, Hproduct, Hstatus, Hlocations.
Qed.

Lemma lineage_only_both (index : Index) (dataset : Dataset)
      (show_sources show_derived : bool) (depth max_depth : Z) :
  (show_derived = false ->
   lineage_only true (build_dataset_info index dataset show_sources show_derived
                                         depth max_depth) = true)
  /\ (show_sources = false ->
      lineage_only false (build_dataset_info index dataset show_sources show_derived
                                             depth max_depth) = true).
Proof.
  funelim (build_dataset_info index dataset show_sources show_derived depth max_depth).
  - split; intros ->.
    + cbn [lineage_only andb]. destruct show_sources; [|reflexivity].
      apply forallb_forall. intros ks Hks. apply in_map_iff in Hks.
      destruct Hks as (x & <- & _). cbn [snd].
      match goal with IH : forall ks : string * Ref, _ |- _ => apply (IH x) end.
      reflexivity.
    + cbn [lineage_only andb]. destruct show_derived; [|reflexivity].
      apply forallb_forall. intros i Hi. apply in_map_iff in Hi.
      destruct Hi as (r & <- & _).
      match goal with IH : forall r : Ref, _ |- _ => apply (IH r) end.
      reflexivity.
  - split; reflexivity.
Qed.

(** X12.  Lineage is resolved in one direction at a time: every info
    under ['sources'] carries sources only, at every depth below it, and
    every info under ['derived'] carries derived datasets only. *)
Theorem build_dataset_info_lineage_one_way (index : Index) (dataset : Dataset)
        (show_sources show_derived : bool) (depth max_depth : Z) :
  (forall l, info_sources (build_dataset_info index dataset show_sources show_derived
                                              depth max_depth) = Some l ->
             forall ks, In ks l -> lineage_only true (snd ks) = true)
  /\ (forall l, info_derived (build_dataset_info index dataset show_sources show_derived
                                                 depth max_depth) = Some l ->
                forall i, In i l -> lineage_only false i = true).
Proof.
  simp build_dataset_info.
  destruct (Z_lt_dec depth max_depth) as [Hlt|Hge]; simp build_dataset_info;
    cbn [info_sources info_derived].
  - split.
    + destruct show_sources; [|discriminate]. intros l [= <-] ks Hks.
      apply in_map_iff in Hks. destruct Hks as (x & <- & _). cbn [snd].
      now apply lineage_only_both.
    + destruct show_derived; [|discriminate]. intros l [= <-] i Hi.
      apply in_map_iff in Hi. destruct Hi as (r & <- & _).
      now apply lineage_only_both.
  - split; discriminate.
Qed.

Lemma build_dataset_info_lineage_one_way_witness :
  forallb (fun ks => lineage_only true (snd ks))
          (match info_sources (build_dataset_info lineage_index nbar_scene true true 1 5) with
           | Some l => l
           | None => []
           end) = true.
Proof.
  apply forallb_forall. intros ks Hks.
  destruct (build_dataset_info_lineage_one_way lineage_index nbar_scene true true 1 5)
    as [Hsources _].
  destruct (info_sources _) as [l|] eqn:E; [|destruct Hks].
  exact (Hsources l eq_refl ks Hks).
Defined.

End UiOutputFacts.

(** ** [file info] *)

Section FileCliInfoFacts.

Import FileCliInfo.

Variable index : UiCommon.Index.
Variable get_datasets_for_location : string -> list UiCommon.Dataset.
Variable _full_uri : string -> string.

Local Abbreviation get_datasets :=
  (get_datasets get_datasets_for_location _full_uri).
Local Abbreviation info_cmd :=
  (info_cmd index get_datasets_for_location _full_uri).

(** The files of the input at whose uri no dataset is found. *)
Local Abbreviation missing files :=
  (List.filter (fun f => Nat.eqb (List.length (get_datasets_for_location (_full_uri f))) 0)
               files).

Lemma get_datasets_counts (files : list string) (n : nat) :
  get_datasets files n =
  (flat_map (fun f => get_datasets_for_location (_full_uri f)) files,
   (n + List.length (missing files))%nat).
Proof.
  revert n. induction files as [|f rest IH]; intros n; simpl.
  - f_equal. lia.
  - rewrite IH.
    destruct (Nat.eqb (List.length (get_datasets_for_location (_full_uri f))) 0);
      simpl; f_equal; lia.
Qed.

(** X13.  [file info] writes one info for every dataset found at the
    input files, in input order, and exits with the number of files at
    which none was found: at most the number of files, and zero exactly
    when every file has a dataset. *)
Theorem info_cmd_exit_code (show_sources show_derived : bool) (max_depth : Z)
        (files : list string) :
  fst (info_cmd show_sources show_derived max_depth files) =
    UiCommon.write_datasets index
      (flat_map (fun f => get_datasets_for_location (_full_uri f)) files)
      show_sources show_derived max_depth
  /\ snd (info_cmd show_sources show_derived max_depth files) = List.length (missing files)
  /\ (snd (info_cmd show_sources show_derived max_depth files) <= List.length files)%nat
  /\ (snd (info_cmd show_sources show_derived max_depth files) = O <->
      forall f, In f files -> get_datasets_for_location (_full_uri f) <> []).
Proof.
  unfold FileCliInfo.info_cmd. rewrite get_datasets_counts. cbn [fst snd Nat.add].
  split; [reflexivity |]. split; [reflexivity |]. split.
  - apply filter_length_le.
  - split.
    + intros Hzero f Hf Hnone.
      assert (Hin : In f (missing files))
        by (apply filter_In; split; [exact Hf | now rewrite Hnone]).
      destruct (missing files); [exact Hin | discriminate].
    + intros Hall. destruct (missing files) as [|f l] eqn:E; [reflexivity |].
      exfalso. assert (Hin : In f (missing files)) by (rewrite E; now left).
      apply filter_In in Hin. destruct Hin as [Hf Hlen].
      apply (Hall f Hf). apply Nat.eqb_eq in Hlen.
      now destruct (get_datasets_for_location (_full_uri f)).
Qed.

End FileCliInfoFacts.

(** ** Dry runs and the count of [file restore] *)

Section FileCliFacts2.

Import FileCli FileCliInfo.

Variable Catalogue : Type.
Variable DatasetId : Type.
Variable get_datasets_for_location : Catalogue -> string -> list DatasetId.
Variable archive_location : Catalogue -> DatasetId -> string -> bool * Catalogue.
Variable restore_location : Catalogue -> DatasetId -> string -> bool * Catalogue.
Variable _full_uri : string -> string.

Local Abbreviation archive_datasets :=
  (archive_datasets Catalogue DatasetId archive_location).
Local Abbreviation archive_files :=
  (archive_files Catalogue DatasetId get_datasets_for_location archive_location _full_uri).
Local Abbreviation archive_cmd :=
  (archive_cmd Catalogue DatasetId get_datasets_for_location archive_location _full_uri).
Local Abbreviation restore_datasets :=
  (restore_datasets Catalogue DatasetId restore_location).
Local Abbreviation restore_files :=
  (restore_files Catalogue DatasetId get_datasets_for_location restore_location _full_uri).
Local Abbreviation restore_cmd :=
  (restore_cmd Catalogue DatasetId get_datasets_for_location restore_location _full_uri).
Local Abbreviation toggle_answers := (toggle_answers Catalogue DatasetId).
Local Abbreviation restore_count_of :=
  (restore_count_of Catalogue DatasetId get_datasets_for_location restore_location
                    _full_uri).

Lemma archive_datasets_dry (file_uri : string) (to_process : list DatasetId)
      (st : Catalogue) (n : nat) :
  archive_datasets true file_uri to_process st n = (n, st).
Proof. induction to_process as [|d rest IH]; simpl; [reflexivity | exact IH]. Qed.

(** X14.  [file archive --dry-run] archives nothing and leaves the
    catalogue as it is; it exits with the number of input files, each one
    counting as a file without a change. *)
Theorem archive_cmd_dry_run (st : Catalogue) (files : list string) :
  archive_cmd st true files = (List.length files, st).
Proof.
  unfold FileCli.archive_cmd.
  assert (H : forall n, archive_files true files st n = ((n + List.length files)%nat, st)).
  { induction files as [|f rest IH]; intros n; simpl.
    - f_equal. lia.
    - rewrite archive_datasets_dry. simpl. rewrite IH. f_equal. lia. }
  apply H.
Qed.

Lemma restore_datasets_dry (file_uri : string) (to_process : list DatasetId)
      (st : Catalogue) (n : nat) :
  restore_datasets true file_uri to_process st O n =
  (O, (n + List.length to_process)%nat, st).
Proof.
  revert n. induction to_process as [|d rest IH]; intros n; simpl.
  - do 2 f_equal. lia.
  - rewrite IH. do 2 f_equal. lia.
Qed.

(** X15.  [file restore --dry-run] restores nothing and leaves the
    catalogue as it is; it exits with the number of datasets found at the
    input files, not with a number of files. *)
Theorem restore_cmd_dry_run (st : Catalogue) (files : list string) :
  restore_cmd st true files =
  (List.length (flat_map (fun f => get_datasets_for_location st (_full_uri f)) files), st).
Proof.
  unfold FileCli.restore_cmd.
  assert (H : forall n,
             restore_files true files st n =
             ((n + List.length (flat_map (fun f => get_datasets_for_location st (_full_uri f))
                                         files))%nat, st)).
  { induction files as [|f rest IH]; intros n; simpl.
    - f_equal. lia.
    - rewrite restore_datasets_dry, IH, length_app. f_equal. lia. }
  apply H.
Qed.

Lemma restore_datasets_counts (file_uri : string) (to_process : list DatasetId)
      (st : Catalogue) (restore_count n : nat) :
  restore_datasets false file_uri to_process st restore_count n =
  let (answers, st') := toggle_answers restore_location false file_uri to_process st in
  ((restore_count + count_occ Bool.bool_dec answers true)%nat,
   (n + if Nat.eqb restore_count 0 then leading_false answers else O)%nat,
   st').
Proof.
  revert st restore_count n.
  induction to_process as [|d rest IH]; intros st restore_count n; simpl.
  - f_equal. f_equal; [lia | destruct (Nat.eqb restore_count 0); lia].
  - destruct (restore_location st d file_uri) as [b st1]. rewrite IH.
    destruct (toggle_answers restore_location false file_uri rest st1) as [bs st2].
    destruct b; simpl.
    + f_equal. f_equal; [lia | destruct (Nat.eqb restore_count 0); lia].
    + destruct (Nat.eqb restore_count 0); f_equal; f_equal; lia.
Qed.

(** X16.  [file restore] exits with the sum, over the input files, of
    the number of datasets at the file that are processed before the
    first one whose location is restored (all of them when none is): its
    test of [restore_count] runs once per dataset. *)
Theorem restore_cmd_exit_code (st : Catalogue) (files : list string) :
  restore_cmd st false files = restore_count_of files st.
Proof.
  unfold FileCli.restore_cmd.
  assert (H : forall st n,
             restore_files false files st n =
             let (k, st') := restore_count_of files st in ((n + k)%nat, st')).
  { induction files as [|f rest IH]; intros st0 n; simpl.
    - f_equal. lia.
    - rewrite restore_datasets_counts.
      destruct (toggle_answers restore_location false (_full_uri f)
                  (get_datasets_for_location st0 (_full_uri f)) st0) as [answers st1].
      simpl. rewrite IH.
      destruct (restore_count_of rest st1) as [k st2]. f_equal. lia. }
  rewrite H. destruct (restore_count_of files st). reflexivity.
Qed.

End FileCliFacts2.

(** ** Metadata paths *)

Section UiPathsFacts.

Import UiPaths.

Variable Path : Type.
Variable is_file : Path -> bool.
Variable is_dir : Path -> bool.
Variable parent : Path -> Path.
Variable name : Path -> string.
Variable joinpath : Path -> string -> Path.
Variable glob : Path -> string -> list Path.
Variable is_supported_document_type : Path -> bool.
Variable repr : Path -> string.

Local Abbreviation find_any_metadata_suffix :=
  (find_any_metadata_suffix Path parent name glob is_supported_document_type repr).
Local Abbreviation get_metadata_path :=
  (get_metadata_path Path is_file is_dir parent name joinpath glob
                     is_supported_document_type repr).
Local Abbreviation candidates := (candidates Path glob is_supported_document_type).

(** The stem looked for beside a dataset, and the one looked for inside a
    dataset directory. *)
Local Abbreviation sibling p := (joinpath (parent p) (String.append (name p) ".agdc-md")).
Local Abbreviation inside p := (joinpath p "agdc-metadata").

Lemma find_any_metadata_suffix_cases (path : Path) :
  match find_any_metadata_suffix path with
  | Ok None => candidates (parent path) (name path) = []
  | Ok (Some found) => candidates (parent path) (name path) = [found]
  | Raise e => (2 <= List.length (candidates (parent path) (name path)))%nat
               /\ is_value_error (@Raise Path e) = true
  end.
Proof.
  unfold UiPaths.find_any_metadata_suffix, UiPaths.candidates.
  destruct (List.filter is_supported_document_type _) as [|a [|b l]]; simpl;
    [reflexivity | reflexivity | split; [lia | reflexivity]].
Qed.

Lemma candidates_supported (dir : Path) (stem : string) (q : Path) :
  In q (candidates dir stem) -> is_supported_document_type q = true.
Proof. unfold UiPaths.candidates. intros H. now apply filter_In in H. Qed.

Lemma find_any_metadata_suffix_one (path found : Path) :
  candidates (parent path) (name path) = [found] ->
  find_any_metadata_suffix path = Ok (Some found).
Proof.
  unfold UiPaths.find_any_metadata_suffix, UiPaths.candidates. now intros ->.
Qed.

Lemma find_any_metadata_suffix_none (path : Path) :
  candidates (parent path) (name path) = [] ->
  find_any_metadata_suffix path = Ok None.
Proof.
  unfold UiPaths.find_any_metadata_suffix, UiPaths.candidates. now intros ->.
Qed.

(** X17.  [get_metadata_path] returns a path in exactly three cases, in
    this order of precedence: the input itself when it is a supported
    file, whatever lies beside it; else the one supported match of the
    [.agdc-md] stem beside the input; else, for a directory with no match
    beside it, the one supported match of [agdc-metadata] inside it.  The
    path returned is always a supported document, and never one picked
    among several matches. *)
Theorem get_metadata_path_found (dataset_path found : Path) :
  (get_metadata_path dataset_path = Ok found <->
   (is_file dataset_path && is_supported_document_type dataset_path = true
    /\ found = dataset_path)
   \/ (is_file dataset_path && is_supported_document_type dataset_path = false
       /\ candidates (parent (sibling dataset_path)) (name (sibling dataset_path))
          = [found])
   \/ (is_file dataset_path && is_supported_document_type dataset_path = false
       /\ candidates (parent (sibling dataset_path)) (name (sibling dataset_path)) = []
       /\ is_dir dataset_path = true
       /\ candidates (parent (inside dataset_path)) (name (inside dataset_path))
          = [found]))
  /\ (get_metadata_path dataset_path = Ok found ->
      is_supported_document_type found = true).
Proof.
  assert (Hfwd : get_metadata_path dataset_path = Ok found ->
                 ((is_file dataset_path && is_supported_document_type dataset_path = true
                   /\ found = dataset_path)
                  \/ (is_file dataset_path && is_supported_document_type dataset_path = false
                      /\ candidates (parent (sibling dataset_path))
                                    (name (sibling dataset_path)) = [found])
                  \/ (is_file dataset_path && is_supported_document_type dataset_path = false
                      /\ candidates (parent (sibling dataset_path))
                                    (name (sibling dataset_path)) = []
                      /\ is_dir dataset_path = true
                      /\ candidates (parent (inside dataset_path))
                                    (name (inside dataset_path)) = [found]))
                 /\ is_supported_document_type found = true).
  { unfold UiPaths.get_metadata_path.
    destruct (is_file dataset_path && is_supported_document_type dataset_path) eqn:Efile.
    - intros [= <-]. split; [left; auto |]. apply andb_prop in Efile. tauto.
    - pose proof (find_any_metadata_suffix_cases (sibling dataset_path)) as Hsib.
      destruct (find_any_metadata_suffix (sibling dataset_path)) as [[f|]|e];
        [intros [= <-] | | discriminate].
      + split; [right; left; auto |].
        apply (candidates_supported (parent (sibling dataset_path))
                                    (name (sibling dataset_path))).
        rewrite Hsib. now left.
      + destruct (is_dir dataset_path) eqn:Edir; [|discriminate].
        pose proof (find_any_metadata_suffix_cases (inside dataset_path)) as Hin.
        destruct (find_any_metadata_suffix (inside dataset_path)) as [[f|]|e];
          [intros [= <-] | discriminate | discriminate].
        split; [right; right; auto |].
        apply (candidates_supported (parent (inside dataset_path))
                                    (name (inside dataset_path))).
        rewrite Hin. now left. }
  split; [split |].
  - intros H. now apply Hfwd.
  - unfold UiPaths.get_metadata_path.
    intros [[Hfile ->]|[[Hfile Hsib]|(Hfile & Hsib & Hdir & Hin)]]; rewrite Hfile.
    + reflexivity.
    + now rewrite (find_any_metadata_suffix_one _ _ Hsib).
    + rewrite (find_any_metadata_suffix_none _ Hsib), Hdir.
      now rewrite (find_any_metadata_suffix_one _ _ Hin).
  - intros H. now apply Hfwd.
Qed.

(** X18.  For an input that is not itself a supported file, two or more
    supported matches beside it are an error: [get_metadata_path] raises
    [ValueError] without looking inside the directory. *)
Theorem get_metadata_path_ambiguous (dataset_path : Path) :
  is_file dataset_path && is_supported_document_type dataset_path = false ->
  (2 <= List.length (candidates (parent (sibling dataset_path))
                                (name (sibling dataset_path))))%nat ->
  is_value_error (get_metadata_path dataset_path) = true.
Proof.
  intros Hfile Hmany. unfold UiPaths.get_metadata_path. rewrite Hfile.
  pose proof (find_any_metadata_suffix_cases (sibling dataset_path)) as Hsib.
  destruct (find_any_metadata_suffix (sibling dataset_path)) as [[f|]|e].
  - rewrite Hsib in Hmany. simpl in Hmany. lia.
  - rewrite Hsib in Hmany. simpl in Hmany. lia.
  - destruct Hsib as [_ He]. destruct e; [reflexivity | discriminate He].
Qed.

(** X19.  When neither the input, nor a match beside it, nor (for a
    directory) a match inside it is a supported document,
    [get_metadata_path] raises [ValueError]. *)
Theorem get_metadata_path_nothing (dataset_path : Path) :
  is_file dataset_path && is_supported_document_type dataset_path = false ->
  candidates (parent (sibling dataset_path)) (name (sibling dataset_path)) = [] ->
  (is_dir dataset_path = true ->
   candidates (parent (inside dataset_path)) (name (inside dataset_path)) = []) ->
  get_metadata_path dataset_path =
  Raise (ValueError ("No metadata found for input " ++ repr dataset_path)).
Proof.
  intros Hfile Hsib Hin. unfold UiPaths.get_metadata_path. rewrite Hfile.
  unfold UiPaths.find_any_metadata_suffix. unfold UiPaths.candidates in Hsib, Hin.
  rewrite Hsib. destruct (is_dir dataset_path); [|reflexivity].
  now rewrite Hin.
Qed.

End UiPathsFacts.

(** A supported file given directly is its own metadata; a dataset file
    has the match beside it; a directory has the match inside it. *)
Lemma get_metadata_path_found_witness :
  UiPaths.fs_get_metadata_path ["data"; "scene.nc.agdc-md.yaml"]
  = Ok ["data"; "scene.nc.agdc-md.yaml"]
  /\ UiPaths.fs_get_metadata_path ["data"; "scene.nc"]
     = Ok ["data"; "scene.nc.agdc-md.yaml"]
  /\ UiPaths.fs_get_metadata_path ["data"; "pkg"]
     = Ok ["data"; "pkg"; "agdc-metadata.yaml"]
  /\ UiPaths.fs_supported ["data"; "pkg"; "agdc-metadata.yaml"] = true.
Proof.
  pose proof (get_metadata_path_found
                UiPaths.FsPath UiPaths.fs_is_file UiPaths.fs_is_dir UiPaths.fs_parent
                UiPaths.fs_name UiPaths.fs_joinpath UiPaths.fs_glob UiPaths.fs_supported
                UiPaths.fs_repr) as H.
  assert (Hpkg : UiPaths.fs_get_metadata_path ["data"; "pkg"]
                 = Ok ["data"; "pkg"; "agdc-metadata.yaml"]).
  { apply (proj1 (H ["data"; "pkg"] ["data"; "pkg"; "agdc-metadata.yaml"])).
    right. right. repeat split; vm_compute; reflexivity. }
  split; [|split; [|split]].
  - apply (proj1 (H ["data"; "scene.nc.agdc-md.yaml"] ["data"; "scene.nc.agdc-md.yaml"])).
    left. split; [vm_compute |]; reflexivity.
  - apply (proj1 (H ["data"; "scene.nc"] ["data"; "scene.nc.agdc-md.yaml"])).
    right. left. split; vm_compute; reflexivity.
  - exact Hpkg.
  - exact (proj2 (H ["data"; "pkg"] ["data"; "pkg"; "agdc-metadata.yaml"]) Hpkg).
Defined.

Lemma get_metadata_path_ambiguous_witness :
  is_value_error (UiPaths.fs_get_metadata_path ["data"; "two.nc"]) = true.
Proof.
  apply get_metadata_path_ambiguous.
  - vm_compute. reflexivity.
  - vm_compute. lia.
Defined.

Lemma get_metadata_path_nothing_witness :
  UiPaths.fs_get_metadata_path ["data"; "pkg"; "band1.tif"]
  = Raise (ValueError "No metadata found for input data/pkg/band1.tif").
Proof.
  apply (get_metadata_path_nothing
           UiPaths.FsPath UiPaths.fs_is_file UiPaths.fs_is_dir UiPaths.fs_parent
           UiPaths.fs_name UiPaths.fs_joinpath UiPaths.fs_glob UiPaths.fs_supported
           UiPaths.fs_repr ["data"; "pkg"; "band1.tif"]).
  - vm_compute. reflexivity.
  - vm_compute. reflexivity.
  - vm_compute. discriminate.
Defined.

(** ** Discovery with its exceptions *)

Section DiscoveryFacts.

Import Manager Discovery.











(** A package whose [__init__.py] raises on import ends the loop,
    whatever the exception. *)
Lemma load_package_init_raises (db : Conn) (ds : PyDict.t Driver) (p : Package) (e : Exc) :
  init_raises p = Some e -> load_package db ds p = inr e.
Proof. intros H. unfold load_package. now rewrite H. Qed.




Lemma reload_drivers_on_package_import_error :
  Discovery.reload_drivers [init_import_error_package; netcdf_package]
                           (mkManager 1%nat None []) 1%nat
  = (mkManager 1%nat None [], [],
     Propagates (mkExc "ImportError" "No module named boto3")).
Proof. vm_compute. reflexivity. Qed.

End DiscoveryFacts.
